(** * line_chart_interactive_view.ts: the interactive layer of the line chart

    A shallow embedding of [LineChartInteractiveViewComponent]
    (tensorboard/webapp/widgets/line_chart_v2/sub_view/line_chart_interactive_view.ts)
    and the properties of its event handlers.

    - A JavaScript [number] is an IEEE-754 binary64 value: Rocq's primitive
      [float], whose operations compute exactly as the JavaScript ones do.
    - The component is a record of its fields; a handler is a computation in
      a small state-and-trace monad: it reads and writes the fields and
      appends the calls it makes on its collaborators (event emitters, change
      detector, DOM event) to a trace.
    - [seriesMetadataMap], a JavaScript object used as a dictionary, is a
      [gmap string _]; reading a missing key gives [None] ([undefined]).
    - The helpers imported from [./chart_view_utils] and
      [./line_chart_interactive_utils] are parameters of the development. *)

From Stdlib Require Import Floats List Bool Lia.
From stdpp Require Import base option list gmap strings.
Import ListNotations.

Set Warnings "-inexact-float".

(** ** Numbers *)

Abbreviation number := float (only parsing).

(** [Math.min(...xs)] (ECMAScript 21.3.2.25): [NaN] if any argument is [NaN];
    otherwise the least argument, starting from [+Infinity], with [-0]
    smaller than [+0]. *)
Definition is_neg_zero (v : number) : bool :=
  match classify v with NZero => true | _ => false end.

Definition is_pos_zero (v : number) : bool :=
  match classify v with PZero => true | _ => false end.

Definition Math_min (xs : list number) : number :=
  if existsb is_nan xs then nan
  else fold_left
         (fun lowest v =>
            if is_neg_zero v && is_pos_zero lowest then v
            else if (v <? lowest)%float then v else lowest)
         xs infinity.

(** [Math.max(...xs)] (ECMAScript 21.3.2.24), symmetric, from [-Infinity]. *)
Definition Math_max (xs : list number) : number :=
  if existsb is_nan xs then nan
  else fold_left
         (fun highest v =>
            if is_pos_zero v && is_neg_zero highest then v
            else if (highest <? v)%float then v else highest)
         xs neg_infinity.

(** ** Types of [../lib/public_types], with the fields this file uses *)

Module Point.
Record t : Set := mk { x : number; y : number }.
End Point.

Module Rect.
Record t : Set := mk { x : number; width : number; height : number; y : number }.
End Rect.

Module Dimension.
Record t : Set := mk { width : number; height : number }.
End Dimension.

Module Extent.
(** [{x: [number, number], y: [number, number]}] *)
Record t : Set := mk { x : number * number; y : number * number }.
End Extent.

Module Scale.
(** [forward(domain, range, x)] and [reverse(domain, range, x)]. *)
Record t : Set := mk {
  forward : number * number -> number * number -> number -> number;
  reverse : number * number -> number * number -> number -> number
}.
End Scale.

Module DataSeries.
Record t : Set := mk { id : string; points : list Point.t }.
End DataSeries.

Module Metadata.
(** An entry of [DataSeriesMetadataMap]. [aux] is optional: the code reads
    it through [Boolean(metadata.aux)]. *)
Record t : Set := mk { displayName : string; visible : bool; aux : option bool }.
End Metadata.

(** ['x' | 'y'], the second argument of [getScaleRangeFromDomDim]. *)
Inductive Axis : Set := AxisX | AxisY.

(** [Boolean(v)] for [v : boolean | undefined]. *)
Definition Boolean_opt (v : option bool) : bool :=
  match v with Some b => b | None => false end.

(** [Boolean(n)] for an array length. *)
Definition Boolean_length (n : nat) : bool := negb (Nat.eqb n 0).

(** ** Types declared in this file *)

Module TooltipDatum.
(** [metadata] has the type of an entry read from the map: [None] is the
    [undefined] of a missing key. [indClosest] and [point] are nullable. *)
Record t : Set := mk {
  id : string;
  metadata : option Metadata.t;
  indClosest : option nat;
  point : option Point.t
}.
End TooltipDatum.

Inductive InteractionState : Set :=
| NONE
| DRAG_ZOOMING
| SCROLL_ZOOMING
| PANNING.

Definition InteractionState_eqb (a b : InteractionState) : bool :=
  match a, b with
  | NONE, NONE | DRAG_ZOOMING, DRAG_ZOOMING
  | SCROLL_ZOOMING, SCROLL_ZOOMING | PANNING, PANNING => true
  | _, _ => false
  end.

Definition SCROLL_ZOOM_SPEED_FACTOR : number := 0.01%float.

(** ** DOM events *)

Record MouseEvent : Set := {
  offsetX : number;
  offsetY : number;
  movementX : number;
  movementY : number;
  shiftKey : bool;
  ctrlKey : bool;
  altKey : bool
}.

Record WheelEvent : Set := {
  asMouseEvent :> MouseEvent;
  deltaX : number;
  deltaY : number;
  deltaMode : number
}.

(** ** The component *)

(** The [@Input()] properties: written by the parent, only read here. *)
Record Inputs : Set := {
  seriesData : list DataSeries.t;
  seriesMetadataMap : gmap string Metadata.t;
  viewExtent : Extent.t;
  xScale : Scale.t;
  yScale : Scale.t;
  domDim : Dimension.t
}.

(** The fields the handlers write. [hideTimer] is the inner subscription of
    the wheel stream's [switchMap]: [Some ms] while a [timer(ms)] is pending. *)
Record Component : Set := {
  inputs :> Inputs;
  state : InteractionState;
  zoomBoxInUiCoordinate : Rect.t;
  cursorXLocation : option number;
  cursoredData : list TooltipDatum.t;
  tooltipDislayAttached : bool;
  showZoomInstruction : bool;
  dragStartCoord : option Point.t;
  isCursorInside : bool;
  hideTimer : option number
}.

(** The component as constructed: the field initialisers of the class. *)
Definition new_Component (i : Inputs) : Component := {|
  inputs := i;
  state := NONE;
  zoomBoxInUiCoordinate := Rect.mk 0 0 0 0;
  cursorXLocation := None;
  cursoredData := [];
  tooltipDislayAttached := false;
  showZoomInstruction := false;
  dragStartCoord := None;
  isCursorInside := false;
  hideTimer := None
|}.

Definition set_inputs (v : Inputs) (c : Component) : Component :=
  {| inputs := v; state := state c;
     zoomBoxInUiCoordinate := zoomBoxInUiCoordinate c;
     cursorXLocation := cursorXLocation c; cursoredData := cursoredData c;
     tooltipDislayAttached := tooltipDislayAttached c;
     showZoomInstruction := showZoomInstruction c;
     dragStartCoord := dragStartCoord c; isCursorInside := isCursorInside c;
     hideTimer := hideTimer c |}.

Definition set_state (v : InteractionState) (c : Component) : Component :=
  {| inputs := inputs c; state := v;
     zoomBoxInUiCoordinate := zoomBoxInUiCoordinate c;
     cursorXLocation := cursorXLocation c; cursoredData := cursoredData c;
     tooltipDislayAttached := tooltipDislayAttached c;
     showZoomInstruction := showZoomInstruction c;
     dragStartCoord := dragStartCoord c; isCursorInside := isCursorInside c;
     hideTimer := hideTimer c |}.

Definition set_zoomBoxInUiCoordinate (v : Rect.t) (c : Component) : Component :=
  {| inputs := inputs c; state := state c;
     zoomBoxInUiCoordinate := v;
     cursorXLocation := cursorXLocation c; cursoredData := cursoredData c;
     tooltipDislayAttached := tooltipDislayAttached c;
     showZoomInstruction := showZoomInstruction c;
     dragStartCoord := dragStartCoord c; isCursorInside := isCursorInside c;
     hideTimer := hideTimer c |}.

Definition set_cursorXLocation (v : option number) (c : Component) : Component :=
  {| inputs := inputs c; state := state c;
     zoomBoxInUiCoordinate := zoomBoxInUiCoordinate c;
     cursorXLocation := v; cursoredData := cursoredData c;
     tooltipDislayAttached := tooltipDislayAttached c;
     showZoomInstruction := showZoomInstruction c;
     dragStartCoord := dragStartCoord c; isCursorInside := isCursorInside c;
     hideTimer := hideTimer c |}.

Definition set_cursoredData (v : list TooltipDatum.t) (c : Component) : Component :=
  {| inputs := inputs c; state := state c;
     zoomBoxInUiCoordinate := zoomBoxInUiCoordinate c;
     cursorXLocation := cursorXLocation c; cursoredData := v;
     tooltipDislayAttached := tooltipDislayAttached c;
     showZoomInstruction := showZoomInstruction c;
     dragStartCoord := dragStartCoord c; isCursorInside := isCursorInside c;
     hideTimer := hideTimer c |}.

Definition set_tooltipDislayAttached (v : bool) (c : Component) : Component :=
  {| inputs := inputs c; state := state c;
     zoomBoxInUiCoordinate := zoomBoxInUiCoordinate c;
     cursorXLocation := cursorXLocation c; cursoredData := cursoredData c;
     tooltipDislayAttached := v;
     showZoomInstruction := showZoomInstruction c;
     dragStartCoord := dragStartCoord c; isCursorInside := isCursorInside c;
     hideTimer := hideTimer c |}.

Definition set_showZoomInstruction (v : bool) (c : Component) : Component :=
  {| inputs := inputs c; state := state c;
     zoomBoxInUiCoordinate := zoomBoxInUiCoordinate c;
     cursorXLocation := cursorXLocation c; cursoredData := cursoredData c;
     tooltipDislayAttached := tooltipDislayAttached c;
     showZoomInstruction := v;
     dragStartCoord := dragStartCoord c; isCursorInside := isCursorInside c;
     hideTimer := hideTimer c |}.

Definition set_dragStartCoord (v : option Point.t) (c : Component) : Component :=
  {| inputs := inputs c; state := state c;
     zoomBoxInUiCoordinate := zoomBoxInUiCoordinate c;
     cursorXLocation := cursorXLocation c; cursoredData := cursoredData c;
     tooltipDislayAttached := tooltipDislayAttached c;
     showZoomInstruction := showZoomInstruction c;
     dragStartCoord := v; isCursorInside := isCursorInside c;
     hideTimer := hideTimer c |}.

Definition set_isCursorInside (v : bool) (c : Component) : Component :=
  {| inputs := inputs c; state := state c;
     zoomBoxInUiCoordinate := zoomBoxInUiCoordinate c;
     cursorXLocation := cursorXLocation c; cursoredData := cursoredData c;
     tooltipDislayAttached := tooltipDislayAttached c;
     showZoomInstruction := showZoomInstruction c;
     dragStartCoord := dragStartCoord c; isCursorInside := v;
     hideTimer := hideTimer c |}.

Definition set_hideTimer (v : option number) (c : Component) : Component :=
  {| inputs := inputs c; state := state c;
     zoomBoxInUiCoordinate := zoomBoxInUiCoordinate c;
     cursorXLocation := cursorXLocation c; cursoredData := cursoredData c;
     tooltipDislayAttached := tooltipDislayAttached c;
     showZoomInstruction := showZoomInstruction c;
     dragStartCoord := dragStartCoord c; isCursorInside := isCursorInside c;
     hideTimer := v |}.

(** ** Effects on collaborators, and the handler monad *)

Inductive Effect : Set :=
| PreventDefault                        (* event.preventDefault() *)
| MarkForCheck                          (* changeDetector.markForCheck() *)
| ViewExtentChange (e : Extent.t)       (* onViewExtentChange.emit(e) *)
| ViewExtentReset.                      (* onViewExtentReset.emit() *)

(** A handler: from the component before to a result, the component after
    and the calls made, in order. *)
Definition M (A : Type) : Type := Component -> A * Component * list Effect.

Definition ret {A} (a : A) : M A := fun c => (a, c, []).

Definition bind {A B} (m : M A) (k : A -> M B) : M B :=
  fun c =>
    let '(a, c1, w1) := m c in
    let '(b, c2, w2) := k a c1 in
    (b, c2, w1 ++ w2).

Definition this : M Component := fun c => (c, c, []).
Definition assign (f : Component -> Component) : M unit := fun c => (tt, f c, []).
Definition call (e : Effect) : M unit := fun c => (tt, c, [e]).
Definition when (b : bool) (m : M unit) : M unit := if b then m else ret tt.

Declare Scope handler_scope.
Delimit Scope handler_scope with handler.
Notation "x <- m ;; k" := (bind m (fun x => k))
  (at level 20, m at level 99, k at level 200, only parsing) : handler_scope.
Notation "m ;; k" := (bind m (fun _ => k))
  (at level 100, k at level 200, only parsing, right associativity) : handler_scope.

(** The component after a handler ran, and the calls it made. *)
Definition after {A} (m : M A) (c : Component) : Component := snd (fst (m c)).
Definition effects {A} (m : M A) (c : Component) : list Effect := snd (m c).

(** The extents passed to [onViewExtentChange.emit], in order. *)
Definition viewExtentChanges (w : list Effect) : list Extent.t :=
  omap (fun e => match e with ViewExtentChange x => Some x | _ => None end) w.

(** ** Sample collaborators

    Concrete scales, helpers and inputs on which the handlers are run. *)

Module Sample.

(** A linear scale: forward maps the domain onto the range, reverse the
    range back onto the domain. *)
Definition lerp (src dst : number * number) (v : number) : number :=
  ((snd dst - fst dst) / (snd src - fst src) * (v - fst src) + fst dst)%float.

Definition linear : Scale.t :=
  {| Scale.forward := fun domain range v => lerp domain range v;
     Scale.reverse := fun domain range v => lerp range domain v |}.

(** Pixel range of an axis: x grows rightwards, y downwards. *)
Definition getScaleRangeFromDomDim (d : Dimension.t) (axis : Axis)
  : number * number :=
  match axis with
  | AxisX => (0%float, Dimension.width d)
  | AxisY => (Dimension.height d, 0%float)
  end.

(** Nearest point by a left-to-right scan; the first of equally near
    points wins; [None] on an empty list. *)
Fixpoint closest_from (target : number) (pts : list Point.t)
    (i best : nat) (bestDist : number) : nat :=
  match pts with
  | [] => best
  | p :: rest =>
      let d := abs (Point.x p - target) in
      if (d <? bestDist)%float
      then closest_from target rest (S i) i d
      else closest_from target rest (S i) best bestDist
  end.

Definition findClosestIndex (pts : list Point.t) (target : number)
  : option nat :=
  match pts with
  | [] => None
  | p :: rest =>
      Some (closest_from target rest 1 0 (abs (Point.x p - target)))
  end.

(** Zoom about the centre of the extent, by [1 + deltaY * factor]. *)
Definition zoomAxis (k : number) (r : number * number) : number * number :=
  let mid := ((fst r + snd r) / 2)%float in
  let half := ((snd r - fst r) / 2 * k)%float in
  ((mid - half)%float, (mid + half)%float).

Definition proposeViewExtentOnZoom (e : WheelEvent) (extent : Extent.t)
    (d : Dimension.t) (factor : number) : Extent.t :=
  let k := (1 + deltaY e * factor)%float in
  {| Extent.x := zoomAxis k (Extent.x extent);
     Extent.y := zoomAxis k (Extent.y extent) |}.

Definition pt (a b : number) : Point.t := Point.mk a b.

Definition run1 : DataSeries.t :=
  DataSeries.mk "run1" [pt 0 1; pt 25 2; pt 50 4; pt 100 8].
Definition run2 : DataSeries.t :=
  DataSeries.mk "run2" [pt 0 3; pt 60 1].
Definition smoothed : DataSeries.t :=
  DataSeries.mk "aux" [pt 0 1; pt 50 2].
Definition empty : DataSeries.t := DataSeries.mk "empty" [].
Definition hidden : DataSeries.t := DataSeries.mk "hidden" [pt 10 1].
Definition orphan : DataSeries.t := DataSeries.mk "orphan" [pt 10 1].

Definition metadataMap : gmap string Metadata.t :=
  <["run1" := Metadata.mk "Run 1" true None]>
  (<["run2" := Metadata.mk "Run 2" true (Some false)]>
  (<["aux" := Metadata.mk "Smoothed" true (Some true)]>
  (<["empty" := Metadata.mk "Empty" true None]>
  (<["hidden" := Metadata.mk "Hidden" false None]> ∅)))).

(** A 200 x 100 pixel chart showing x in [0, 100] and y in [0, 10]. *)
Definition chart : Inputs :=
  {| seriesData := [run1; smoothed; empty; hidden; orphan; run2];
     seriesMetadataMap := metadataMap;
     viewExtent := Extent.mk (0, 100)%float (0, 10)%float;
     xScale := linear;
     yScale := linear;
     domDim := Dimension.mk 200 100 |}.

Definition mouseAt (px py : number) : MouseEvent :=
  {| offsetX := px; offsetY := py; movementX := 0; movementY := 0;
     shiftKey := false; ctrlKey := false; altKey := false |}.

Definition mouseMovedBy (dx dy : number) : MouseEvent :=
  {| offsetX := 100; offsetY := 50; movementX := dx; movementY := dy;
     shiftKey := true; ctrlKey := false; altKey := false |}.

Definition wheelWith (ctrl shift alt : bool) : WheelEvent :=
  {| asMouseEvent :=
       {| offsetX := 100; offsetY := 50; movementX := 0; movementY := 0;
          shiftKey := shift; ctrlKey := ctrl; altKey := alt |};
     deltaX := 0; deltaY := 10; deltaMode := 0 |}.

(** The component at rest; after a press at (10, 10); after the pointer
    was then dragged to (50, 40); while panning; and with the cursor
    resting at x = 30. *)
Definition idle : Component := new_Component chart.

Definition pressed : Component :=
  set_zoomBoxInUiCoordinate (Rect.mk 10 0 0 10)
    (set_dragStartCoord (Some (pt 10 10)) (set_state DRAG_ZOOMING idle)).

Definition dragged : Component :=
  set_zoomBoxInUiCoordinate (Rect.mk 10 40 30 10) pressed.

Definition panning : Component :=
  set_dragStartCoord (Some (pt 10 10)) (set_state PANNING idle).

Definition hovering : Component :=
  set_isCursorInside true (set_cursorXLocation (Some 30%float) idle).

End Sample.

(** ** The handlers *)

Section LineChartInteractiveView.

(** [getScaleRangeFromDomDim] of [./chart_view_utils]; [findClosestIndex]
    and [proposeViewExtentOnZoom] of [./line_chart_interactive_utils]. *)
Variable getScaleRangeFromDomDim : Dimension.t -> Axis -> number * number.
Variable findClosestIndex : list Point.t -> number -> option nat.
Variable proposeViewExtentOnZoom :
  WheelEvent -> Extent.t -> Dimension.t -> number -> Extent.t.

Local Open Scope handler_scope.

(** *** Coordinate mapping *)

Definition getDomX (c : Component) (uiCoord : number) : number :=
  Scale.forward (xScale c) (Extent.x (viewExtent c))
    (getScaleRangeFromDomDim (domDim c) AxisX) uiCoord.

Definition getDataX (c : Component) (uiCoord : number) : number :=
  Scale.reverse (xScale c) (Extent.x (viewExtent c))
    (getScaleRangeFromDomDim (domDim c) AxisX) uiCoord.

Definition getDomY (c : Component) (uiCoord : number) : number :=
  Scale.forward (yScale c) (Extent.y (viewExtent c))
    (getScaleRangeFromDomDim (domDim c) AxisY) uiCoord.

Definition getDataY (c : Component) (uiCoord : number) : number :=
  Scale.reverse (yScale c) (Extent.y (viewExtent c))
    (getScaleRangeFromDomDim (domDim c) AxisY) uiCoord.

(** *** Tooltip *)

(** The three callbacks of the [map / filter / map / filter] chain. *)
Definition withMetadata (c : Component) (s : DataSeries.t)
  : DataSeries.t * option Metadata.t :=
  (s, seriesMetadataMap c !! DataSeries.id s).

Definition shown (p : DataSeries.t * option Metadata.t) : bool :=
  match snd p with
  | Some metadata =>
      Metadata.visible metadata && negb (Boolean_opt (Metadata.aux metadata))
  | None => false
  end.

Definition closestDatum (cursorX : number)
    (p : DataSeries.t * option Metadata.t) : TooltipDatum.t :=
  let index := findClosestIndex (DataSeries.points (fst p)) cursorX in
  {| TooltipDatum.id := DataSeries.id (fst p);
     TooltipDatum.indClosest := index;
     TooltipDatum.point :=
       match index with
       | Some i => DataSeries.points (fst p) !! i
       | None => None
       end;
     TooltipDatum.metadata := snd p |}.

Definition resolved (d : TooltipDatum.t) : bool :=
  match TooltipDatum.indClosest d with Some _ => true | None => false end.

Definition updateCursoredDataAndTooltipVisibility : M unit :=
  c <- this ;;
  match cursorXLocation c with
  | None => ret tt
  | Some cursorX =>
      assign (set_cursoredData
        (List.filter resolved
          (List.map (closestDatum cursorX)
            (List.filter shown
              (List.map (withMetadata c) (seriesData c)))))) ;;
      c <- this ;;
      assign (set_tooltipDislayAttached
        (isCursorInside c && Boolean_length (length (cursoredData c))))
  end.

Definition updateTooltip (event : MouseEvent) : M unit :=
  c <- this ;;
  assign (set_cursorXLocation (Some (getDataX c (offsetX event)))) ;;
  updateCursoredDataAndTooltipVisibility.

Definition onTooltipDisplayDetached : M unit :=
  assign (set_tooltipDislayAttached false).

(** Angular writes the inputs, then calls [ngOnChanges]. *)
Definition ngOnChanges (i : Inputs) : M unit :=
  assign (set_inputs i) ;;
  updateCursoredDataAndTooltipVisibility.

(** The key Angular tracks the tooltip rows by. *)
Definition trackBySeriesName (index : nat) (datum : TooltipDatum.t) : string :=
  TooltipDatum.id datum.

(** *** The subscriptions of [ngAfterViewInit] *)

Definition onDblClick : M unit :=
  call PreventDefault ;;
  call ViewExtentReset ;;
  assign (set_state NONE) ;;
  call MarkForCheck.

Definition onMouseDown (event : MouseEvent) : M unit :=
  call PreventDefault ;;
  assign (set_state (if shiftKey event then PANNING else DRAG_ZOOMING)) ;;
  assign (set_dragStartCoord
            (Some (Point.mk (offsetX event) (offsetY event)))) ;;
  c <- this ;;
  when (InteractionState_eqb (state c) DRAG_ZOOMING)
    (assign (set_zoomBoxInUiCoordinate
       {| Rect.x := offsetX event; Rect.width := 0;
          Rect.y := offsetY event; Rect.height := 0 |})) ;;
  call MarkForCheck.

Definition onMouseUp : M unit :=
  assign (set_dragStartCoord None) ;;
  c <- this ;;
  let zoomBox := zoomBoxInUiCoordinate c in
  when (InteractionState_eqb (state c) DRAG_ZOOMING
        && (0 <? Rect.width zoomBox)%float
        && (0 <? Rect.height zoomBox)%float)
    (let xMin := getDataX c (Rect.x zoomBox) in
     let xMax := getDataX c (Rect.x zoomBox + Rect.width zoomBox) in
     let yMin := getDataY c (Rect.y zoomBox + Rect.height zoomBox) in
     let yMax := getDataY c (Rect.y zoomBox) in
     call (ViewExtentChange
             {| Extent.x := (xMin, xMax); Extent.y := (yMin, yMax) |})) ;;
  c <- this ;;
  when (negb (InteractionState_eqb (state c) NONE))
    (assign (set_state NONE) ;;
     call MarkForCheck).

Definition onMouseEnter (event : MouseEvent) : M unit :=
  assign (set_isCursorInside true) ;;
  updateTooltip event ;;
  call MarkForCheck.

Definition onMouseLeave (event : MouseEvent) : M unit :=
  assign (set_dragStartCoord None) ;;
  assign (set_isCursorInside false) ;;
  updateTooltip event ;;
  assign (set_state NONE) ;;
  call MarkForCheck.

Definition onMouseMove (event : MouseEvent) : M unit :=
  c <- this ;;
  match state c with
  | SCROLL_ZOOMING =>
      assign (set_state NONE) ;;
      updateTooltip event ;;
      call MarkForCheck
  | NONE =>
      updateTooltip event ;;
      call MarkForCheck
  | PANNING =>
      let deltaX := (- movementX event)%float in
      let deltaY := (- movementY event)%float in
      let domWidth := Dimension.width (domDim c) in
      let domHeight := Dimension.height (domDim c) in
      let xMin := getDataX c deltaX in
      let xMax := getDataX c (domWidth + deltaX) in
      let yMin := getDataY c (domHeight + deltaY) in
      let yMax := getDataY c deltaY in
      call (ViewExtentChange
              {| Extent.x := (xMin, xMax); Extent.y := (yMin, yMax) |})
  | DRAG_ZOOMING =>
      match dragStartCoord c with
      | None => ret tt
      | Some start =>
          let xs := [Point.x start; offsetX event] in
          let ys := [Point.y start; offsetY event] in
          assign (set_zoomBoxInUiCoordinate
            {| Rect.x := Math_min xs;
               Rect.width := Math_max xs - Math_min xs;
               Rect.y := Math_min ys;
               Rect.height := Math_max ys - Math_min ys |}) ;;
          call MarkForCheck
      end
  end.

(** The wheel stream. [switchMap] runs its projection, drops the inner
    subscription of the previous event (a pending timer) and subscribes to
    the new one: [of(event)] reaches the subscriber at once, [timer(3000)]
    is left pending and its [null] never passes the filter. *)
Definition onWheel (event : WheelEvent) : M unit :=
  let shouldZoom :=
    negb (ctrlKey event) && negb (shiftKey event) && altKey event in
  assign (set_showZoomInstruction (negb shouldZoom)) ;;
  call MarkForCheck ;;
  if shouldZoom then
    assign (set_hideTimer None) ;;
    call PreventDefault ;;
    c <- this ;;
    call (ViewExtentChange
            (proposeViewExtentOnZoom event (viewExtent c) (domDim c)
               SCROLL_ZOOM_SPEED_FACTOR)) ;;
    c <- this ;;
    when (negb (InteractionState_eqb (state c) SCROLL_ZOOMING))
      (assign (set_state SCROLL_ZOOMING) ;;
       call MarkForCheck)
  else
    assign (set_hideTimer (Some 3000%float)).

(** The pending [timer(3000)] fires: its [tap]. *)
Definition onHideTimer : M unit :=
  c <- this ;;
  match hideTimer c with
  | None => ret tt
  | Some _ =>
      assign (set_hideTimer None) ;;
      assign (set_showZoomInstruction false) ;;
      call MarkForCheck
  end.


(** *** The component over time

    What can happen to the component: the six DOM events, the timer of
    the wheel stream, and the calls Angular and the overlay make. *)
Inductive Event : Set :=
| DblClick
| MouseDown (event : MouseEvent)
| MouseUp
| MouseEnter (event : MouseEvent)
| MouseLeave (event : MouseEvent)
| MouseMove (event : MouseEvent)
| Wheel (event : WheelEvent)
| HideTimer
| Changes (i : Inputs)
| TooltipDisplayDetached.

Definition handle (ev : Event) : M unit :=
  match ev with
  | DblClick => onDblClick
  | MouseDown event => onMouseDown event
  | MouseUp => onMouseUp
  | MouseEnter event => onMouseEnter event
  | MouseLeave event => onMouseLeave event
  | MouseMove event => onMouseMove event
  | Wheel event => onWheel event
  | HideTimer => onHideTimer
  | Changes i => ngOnChanges i
  | TooltipDisplayDetached => onTooltipDisplayDetached
  end.

(** The components a new one can become. *)
Inductive reachable : Component -> Prop :=
| reachable_new (i : Inputs) : reachable (new_Component i)
| reachable_step (c : Component) (ev : Event) :
    reachable c -> reachable (after (handle ev) c).

(** ** Vocabulary of the properties *)

(** Before the first cursor position there is no tooltip. *)
Definition no_cursor_no_tooltip (c : Component) : Prop :=
  cursorXLocation c = None ->
  cursoredData c = [] /\ tooltipDislayAttached c = false.


(** The extent a mouse up commits: the zoom box through the reverse
    scales, its bottom edge giving the least y. *)
Definition zoomBoxExtent (c : Component) : Extent.t :=
  let box := zoomBoxInUiCoordinate c in
  {| Extent.x := (getDataX c (Rect.x box),
                  getDataX c (Rect.x box + Rect.width box));
     Extent.y := (getDataY c (Rect.y box + Rect.height box),
                  getDataY c (Rect.y box)) |}.

(** The wheel gesture that zooms: Alt held, Ctrl and Shift not. *)
Definition zoomGesture (event : WheelEvent) : Prop :=
  altKey event = true /\ ctrlKey event = false /\ shiftKey event = false.

(** A scale whose reverse undoes its forward at [v], for one domain and
    one pixel range. *)
Definition inverse_at (s : Scale.t) (domain range : number * number)
    (v : number) : Prop :=
  Scale.reverse s domain range (Scale.forward s domain range v) = v.

(** [m] is the lesser, resp. the greater, of [a] and [b]. *)
Definition least_of (m a b : number) : Prop :=
  (m = a \/ m = b) /\ (m <=? a)%float = true /\ (m <=? b)%float = true.

Definition greatest_of (m a b : number) : Prop :=
  (m = a \/ m = b) /\ (a <=? m)%float = true /\ (b <=? m)%float = true.

(** The specification's reading of the tooltip chain: the entry of one series,
    if it has one. *)
Definition tooltipOf (c : Component) (cursorX : number) (s : DataSeries.t)
  : option TooltipDatum.t :=
  match seriesMetadataMap c !! DataSeries.id s with
  | None => None
  | Some metadata =>
      if Metadata.visible metadata
         && negb (Boolean_opt (Metadata.aux metadata))
      then
        match findClosestIndex (DataSeries.points s) cursorX with
        | None => None
        | Some i =>
            Some {| TooltipDatum.id := DataSeries.id s;
                    TooltipDatum.metadata := Some metadata;
                    TooltipDatum.indClosest := Some i;
                    TooltipDatum.point := DataSeries.points s !! i |}
        end
      else None
  end.

(** What the helper is for: the index it returns is an index of the list
    it was given. *)
Definition index_in_range (f : list Point.t -> number -> option nat)
  : Prop :=
  forall pts target i, f pts target = Some i -> i < length pts.

(** An entry that names a series, an index of its points and the point
    at that index. *)
Definition resolves (l : list DataSeries.t) (d : TooltipDatum.t) : Prop :=
  exists s i p,
    In s l
    /\ TooltipDatum.id d = DataSeries.id s
    /\ TooltipDatum.indClosest d = Some i
    /\ TooltipDatum.point d = Some p
    /\ DataSeries.points s !! i = Some p.

(** A gesture in progress has its origin. *)
Definition gesture_has_origin (c : Component) : Prop :=
  state c = DRAG_ZOOMING \/ state c = PANNING -> dragStartCoord c <> None.

(** [cursoredData] is what the current inputs give at the cursor. *)
Definition cursoredData_current (c : Component) : Prop :=
  forall cursorX,
    cursorXLocation c = Some cursorX ->
    cursoredData c = omap (tooltipOf c cursorX) (seriesData c).

(** An attached tooltip has the cursor inside and something to show. *)
Definition attached_inside (c : Component) : Prop :=
  tooltipDislayAttached c = true ->
  isCursorInside c = true /\ cursoredData c <> [].

(** The instruction shows exactly while the timer that hides it runs. *)
Definition instruction_timed (c : Component) : Prop :=
  showZoomInstruction c = true <-> hideTimer c <> None.

(** An entry whose metadata is the one listed for its series, visible and
    not auxiliary. *)
Definition listed_visible (c : Component) (d : TooltipDatum.t) : Prop :=
  exists m,
    TooltipDatum.metadata d = Some m
    /\ seriesMetadataMap c !! TooltipDatum.id d = Some m
    /\ Metadata.visible m = true
    /\ Boolean_opt (Metadata.aux m) = false.

(** The extent a mouse move emits while panning. *)
Definition pannedExtent (c : Component) (event : MouseEvent) : Extent.t :=
  {| Extent.x :=
       (getDataX c (- movementX event),
        getDataX c (Dimension.width (domDim c) + - movementX event));
     Extent.y :=
       (getDataY c (Dimension.height (domDim c) + - movementY event),
        getDataY c (- movementY event)) |}.

(** The rectangle spanned by two pointer positions, as a mouse move
    computes it. *)
Definition spannedBox (x0 y0 x1 y1 : number) : Rect.t :=
  {| Rect.x := Math_min [x0; x1];
     Rect.width := Math_max [x0; x1] - Math_min [x0; x1];
     Rect.y := Math_min [y0; y1];
     Rect.height := Math_max [y0; y1] - Math_min [y0; y1] |}.

(** ** Doubles: order, zeros, minimum and maximum *)

Lemma SFcompare_antisym (x y : spec_float) :
  SFcompare y x = option_map CompOpp (SFcompare x y).
Proof.
  destruct x as [[|]|[|]| |[|] m1 e1], y as [[|]|[|]| |[|] m2 e2];
    try reflexivity; cbn;
    rewrite (Z.compare_antisym e2 e1); destruct (e2 ?= e1)%Z; cbn;
    rewrite ?Pos.compare_cont_antisym; reflexivity.
Qed.

Lemma SFcompare_defined (x y : spec_float) :
  SFcompare x x <> None -> SFcompare y y <> None -> SFcompare x y <> None.
Proof.
  destruct x as [[|]|[|]| |[|] m1 e1], y as [[|]|[|]| |[|] m2 e2];
    cbn; congruence.
Qed.

Lemma leb_refl (a : number) : is_nan a = false -> (a <=? a)%float = true.
Proof.
  unfold is_nan. rewrite FloatAxioms.eqb_spec, leb_spec.
  unfold SFeqb, SFleb.
  destruct (SFcompare _ _) as [[]|]; cbn; congruence.
Qed.

Lemma ltb_leb (a b : number) :
  (a <? b)%float = true -> (a <=? b)%float = true.
Proof.
  rewrite ltb_spec, leb_spec. unfold SFltb, SFleb.
  destruct (SFcompare _ _) as [[]|]; cbn; congruence.
Qed.

Lemma not_ltb_leb (a b : number) :
  is_nan a = false -> is_nan b = false ->
  (b <? a)%float = false -> (a <=? b)%float = true.
Proof.
  unfold is_nan. rewrite !FloatAxioms.eqb_spec, ltb_spec, leb_spec.
  unfold SFeqb, SFltb, SFleb. intros Ha Hb.
  assert (Hab : SFcompare (Prim2SF a) (Prim2SF b) <> None).
  { apply SFcompare_defined; intros E; rewrite E in *; discriminate. }
  rewrite (SFcompare_antisym (Prim2SF a) (Prim2SF b)).
  destruct (SFcompare (Prim2SF a) (Prim2SF b)) as [[]|]; cbn; congruence.
Qed.

Lemma below_infinity (a : number) :
  is_nan a = false -> (if (a <? infinity)%float then a else infinity) = a.
Proof.
  intros Ha. destruct (a <? infinity)%float eqn:E; [reflexivity|].
  apply Prim2SF_inj. unfold is_nan in Ha.
  rewrite FloatAxioms.eqb_spec in Ha. rewrite ltb_spec in E.
  destruct (Prim2SF a) as [[|]|[|]| |[|] m e]; try discriminate; reflexivity.
Qed.

Lemma above_neg_infinity (a : number) :
  is_nan a = false ->
  (if (neg_infinity <? a)%float then a else neg_infinity) = a.
Proof.
  intros Ha. destruct (neg_infinity <? a)%float eqn:E; [reflexivity|].
  apply Prim2SF_inj. unfold is_nan in Ha.
  rewrite FloatAxioms.eqb_spec in Ha. rewrite ltb_spec in E.
  destruct (Prim2SF a) as [[|]|[|]| |[|] m e]; try discriminate; reflexivity.
Qed.

Lemma zeros_leb (a b : number) :
  is_neg_zero b = true -> is_pos_zero a = true -> (b <=? a)%float = true.
Proof.
  unfold is_neg_zero, is_pos_zero. rewrite !classify_spec, leb_spec.
  unfold SF64classify, SFclassify.
  destruct (Prim2SF a) as [[|]|[|]| |[|] m1 e1],
           (Prim2SF b) as [[|]|[|]| |[|] m2 e2];
    repeat match goal with
           | |- context [if ?t then _ else _] => destruct t
           end;
    try discriminate; reflexivity.
Qed.

(** [Math.min] and [Math.max] of two numbers, neither of them [NaN]. *)
Lemma Math_min_pair (a b : number) :
  is_nan a = false -> is_nan b = false -> least_of (Math_min [a; b]) a b.
Proof.
  intros Ha Hb. unfold Math_min. cbn [existsb fold_left]. rewrite Ha, Hb.
  cbn [orb]. change (is_pos_zero infinity) with false.
  rewrite andb_false_r, (below_infinity a Ha). unfold least_of.
  destruct (is_neg_zero b && is_pos_zero a) eqn:Ez.
  - apply andb_true_iff in Ez as [Eb Ea].
    pose proof (zeros_leb a b Eb Ea). auto using leb_refl.
  - destruct (b <? a)%float eqn:Elt;
      auto using leb_refl, ltb_leb, not_ltb_leb.
Qed.

Lemma Math_max_pair (a b : number) :
  is_nan a = false -> is_nan b = false -> greatest_of (Math_max [a; b]) a b.
Proof.
  intros Ha Hb. unfold Math_max. cbn [existsb fold_left]. rewrite Ha, Hb.
  cbn [orb]. change (is_neg_zero neg_infinity) with false.
  rewrite andb_false_r, (above_neg_infinity a Ha). unfold greatest_of.
  destruct (is_pos_zero b && is_neg_zero a) eqn:Ez.
  - apply andb_true_iff in Ez as [Eb Ea].
    pose proof (zeros_leb b a Ea Eb). auto using leb_refl.
  - destruct (a <? b)%float eqn:Elt;
      auto using leb_refl, ltb_leb, not_ltb_leb.
Qed.

(** A number equal to zero, [0] or [-0], is not greater than zero. *)
Lemma is_zero_not_positive (v : number) :
  is_zero v = true -> (0 <? v)%float = false.
Proof.
  unfold is_zero. rewrite FloatAxioms.eqb_spec, ltb_spec.
  destruct (Prim2SF v) as [[|]|[|]| |[|] m e]; cbn; congruence.
Qed.

(** Subtraction is addition of the opposite, on every pair of doubles. *)
Lemma sub_add_opp (a b : number) : (a - b = a + - b)%float.
Proof.
  apply Prim2SF_inj. rewrite sub_spec, add_spec, opp_spec.
  destruct (Prim2SF a) as [[|]|[|]| |sa ma ea],
           (Prim2SF b) as [[|]|[|]| |sb mb eb]; try reflexivity.
  unfold SF64sub, SF64add, SFsub, SFadd, SFopp.
  f_equal. destruct sb; cbn [negb cond_Zopp]; lia.
Qed.

(** ** Properties of the handlers *)

Ltac handler :=
  unfold after, effects, onMouseUp, onMouseDown, onMouseLeave, onMouseEnter,
    onMouseMove, onWheel, onDblClick, onHideTimer, ngOnChanges,
    updateTooltip, updateCursoredDataAndTooltipVisibility,
    bind, when, assign, call, this, ret;
  cbn.

Lemma InteractionState_eqb_eq (a b : InteractionState) :
  InteractionState_eqb a b = true <-> a = b.
Proof. destruct a, b; cbn; split; congruence. Qed.

(** *** Mouse up *)

Lemma onMouseUp_changes (c : Component) :
  viewExtentChanges (effects onMouseUp c) =
    if InteractionState_eqb (state c) DRAG_ZOOMING
       && (0 <? Rect.width (zoomBoxInUiCoordinate c))%float
       && (0 <? Rect.height (zoomBoxInUiCoordinate c))%float
    then [zoomBoxExtent c] else [].
Proof.
  destruct c as [inp st box cx cd att zi ds ins ht]. handler.
  destruct st, (0 <? Rect.width box)%float, (0 <? Rect.height box)%float;
    reflexivity.
Qed.

Lemma onMouseUp_state (c : Component) : state (after onMouseUp c) = NONE.
Proof.
  destruct c as [inp st box cx cd att zi ds ins ht]. handler.
  destruct st, (0 <? Rect.width box)%float, (0 <? Rect.height box)%float;
    reflexivity.
Qed.

Lemma onMouseUp_dragStartCoord (c : Component) :
  dragStartCoord (after onMouseUp c) = None.
Proof.
  destruct c as [inp st box cx cd att zi ds ins ht]. handler.
  destruct st, (0 <? Rect.width box)%float, (0 <? Rect.height box)%float;
    reflexivity.
Qed.

(** C1: on mouse up in DRAG_ZOOMING with a zoom box of positive width and
    height, exactly one view-extent change is emitted, with x-extent
    [toData(box.x), toData(box.x + box.width)] and y-extent
    [toDataY(box.y + box.height), toDataY(box.y)]; with a box of zero width
    or zero height none is emitted; in every case the drag origin is cleared
    and a state other than NONE becomes NONE. *)
Theorem mouseup_commits_zoom_box (c : Component) :
  let box := zoomBoxInUiCoordinate c in
  (state c = DRAG_ZOOMING ->
   (0 <? Rect.width box)%float = true ->
   (0 <? Rect.height box)%float = true ->
   viewExtentChanges (effects onMouseUp c) =
     [ {| Extent.x := (getDataX c (Rect.x box),
                       getDataX c (Rect.x box + Rect.width box));
          Extent.y := (getDataY c (Rect.y box + Rect.height box),
                       getDataY c (Rect.y box)) |} ])
  /\ (is_zero (Rect.width box) = true \/ is_zero (Rect.height box) = true ->
      viewExtentChanges (effects onMouseUp c) = [])
  /\ dragStartCoord (after onMouseUp c) = None
  /\ (state c <> NONE -> state (after onMouseUp c) = NONE).
Proof.
  intros box. split; [|split; [|split]].
  - intros Hst Hw Hh. rewrite onMouseUp_changes. fold box.
    rewrite Hst, Hw, Hh. reflexivity.
  - intros Hz. rewrite onMouseUp_changes. fold box.
    destruct Hz as [Hz | Hz]; rewrite (is_zero_not_positive _ Hz);
      rewrite ?andb_false_r; reflexivity.
  - apply onMouseUp_dragStartCoord.
  - intros _. apply onMouseUp_state.
Qed.

(** *** Wheel *)

Lemma zoomGesture_shouldZoom (event : WheelEvent) :
  negb (ctrlKey event) && negb (shiftKey event) && altKey event = true
  <-> zoomGesture event.
Proof.
  unfold zoomGesture.
  destruct (ctrlKey event), (shiftKey event), (altKey event); cbn;
    intuition congruence.
Qed.

(** C2: a wheel event is taken as a zoom (its default is prevented) exactly
    when Alt is held and neither Ctrl nor Shift is; then one view-extent
    change is emitted, the extent [proposeViewExtentOnZoom] gives for the
    speed factor 0.01, and the state becomes SCROLL_ZOOMING; otherwise no
    view-extent change is emitted and [showZoomInstruction] becomes true. *)
Theorem wheel_zoom_gesture (c : Component) (event : WheelEvent) :
  (In PreventDefault (effects (onWheel event) c) <-> zoomGesture event)
  /\ (zoomGesture event ->
      viewExtentChanges (effects (onWheel event) c) =
        [proposeViewExtentOnZoom event (viewExtent c) (domDim c) 0.01%float]
      /\ state (after (onWheel event) c) = SCROLL_ZOOMING)
  /\ (~ zoomGesture event ->
      viewExtentChanges (effects (onWheel event) c) = []
      /\ showZoomInstruction (after (onWheel event) c) = true).
Proof.
  destruct c as [inp st box cx cd att zi ds ins ht].
  pose proof (zoomGesture_shouldZoom event) as Hz.
  handler.
  destruct (negb (ctrlKey event) && negb (shiftKey event) && altKey event).
  - assert (Hg : zoomGesture event) by (apply Hz; reflexivity).
    destruct st; cbn;
      (split; [split; [intros _; exact Hg | intros _; auto] |]);
      (split; [intros _; split; reflexivity | intros Hn; destruct (Hn Hg)]).
  - assert (Hn : ~ zoomGesture event)
      by (intros Hg; apply Hz in Hg; discriminate).
    cbn.
    split; [split; [intros [Hin | []]; discriminate
                   | intros Hg; destruct (Hn Hg)] |].
    split; [intros Hg; destruct (Hn Hg) | intros _; split; reflexivity].
Qed.

(** *** Coordinates *)

(** C3: on both axes [toData(toDisplayPixel(v))] is [v], whenever the
    reverse transform of the axis's scale undoes its forward transform at
    [v] for the view extent and the pixel range of the axis. The equality
    is exact, hence within any tolerance. *)
Theorem round_trip (c : Component) (v : number) :
  (inverse_at (xScale c) (Extent.x (viewExtent c))
     (getScaleRangeFromDomDim (domDim c) AxisX) v ->
   getDataX c (getDomX c v) = v)
  /\ (inverse_at (yScale c) (Extent.y (viewExtent c))
       (getScaleRangeFromDomDim (domDim c) AxisY) v ->
     getDataY c (getDomY c v) = v).
Proof. split; intros H; exact H. Qed.

(** *** Mouse move *)

(** C4: a mouse move while PANNING emits exactly one view-extent change,
    with x-extent [toData(-movementX), toData(domWidth - movementX)] and
    y-extent [toDataY(domHeight - movementY), toDataY(-movementY)], and
    changes nothing in the component: the state stays PANNING. *)
Theorem mousemove_panning (c : Component) (event : MouseEvent) :
  state c = PANNING ->
  effects (onMouseMove event) c =
    [ViewExtentChange
       {| Extent.x :=
            (getDataX c (- movementX event),
             getDataX c (Dimension.width (domDim c) - movementX event));
          Extent.y :=
            (getDataY c (Dimension.height (domDim c) - movementY event),
             getDataY c (- movementY event)) |}]
  /\ after (onMouseMove event) c = c
  /\ state (after (onMouseMove event) c) = PANNING.
Proof.
  intros Hst. rewrite !sub_add_opp.
  destruct c as [inp st box cx cd att zi ds ins ht]. cbn in Hst. subst st.
  repeat split.
Qed.

(** C7: a mouse move while DRAG_ZOOMING with a drag origin makes the zoom
    box the bounding rectangle of the origin and the pointer: its corner
    is the minimum on each axis, its width and height the maximum minus
    the minimum; the state stays DRAG_ZOOMING and no view-extent change is
    emitted. The minimum and the maximum are [Math.min] and [Math.max] of
    the two coordinates: the least and the greatest of the two, unless
    one is [NaN]. *)
Theorem mousemove_drag_zooming (c : Component) (event : MouseEvent)
    (start : Point.t) :
  state c = DRAG_ZOOMING ->
  dragStartCoord c = Some start ->
  let xs := [Point.x start; offsetX event] in
  let ys := [Point.y start; offsetY event] in
  zoomBoxInUiCoordinate (after (onMouseMove event) c) =
    {| Rect.x := Math_min xs;
       Rect.width := Math_max xs - Math_min xs;
       Rect.y := Math_min ys;
       Rect.height := Math_max ys - Math_min ys |}
  /\ state (after (onMouseMove event) c) = DRAG_ZOOMING
  /\ viewExtentChanges (effects (onMouseMove event) c) = []
  /\ (is_nan (Point.x start) = false -> is_nan (offsetX event) = false ->
      least_of (Math_min xs) (Point.x start) (offsetX event)
      /\ greatest_of (Math_max xs) (Point.x start) (offsetX event))
  /\ (is_nan (Point.y start) = false -> is_nan (offsetY event) = false ->
      least_of (Math_min ys) (Point.y start) (offsetY event)
      /\ greatest_of (Math_max ys) (Point.y start) (offsetY event)).
Proof.
  intros Hst Hds xs ys.
  assert (Hbox : forall a b, is_nan a = false -> is_nan b = false ->
            least_of (Math_min [a; b]) a b
            /\ greatest_of (Math_max [a; b]) a b)
    by auto using Math_min_pair, Math_max_pair.
  destruct c as [inp st box cx cd att zi ds ins ht]. cbn in Hst, Hds.
  subst st ds xs ys. repeat split; try apply Hbox; assumption.
Qed.

(** *** Tooltip *)

(** The chain of the code against the reading by series. *)
Lemma tooltip_chain (c : Component) (cursorX : number)
    (l : list DataSeries.t) :
  List.filter resolved
    (List.map (closestDatum cursorX)
       (List.filter shown (List.map (withMetadata c) l)))
  = omap (tooltipOf c cursorX) l.
Proof.
  induction l as [|s l IH]; [reflexivity|].
  cbn [List.map omap list_omap]. rewrite <- IH. clear IH.
  change (withMetadata c s) with (s, seriesMetadataMap c !! DataSeries.id s).
  unfold tooltipOf. cbn [List.filter]. unfold shown at 1. cbn [snd].
  destruct (seriesMetadataMap c !! DataSeries.id s) as [m|]; [|reflexivity].
  destruct (Metadata.visible m && negb (Boolean_opt (Metadata.aux m)));
    [|reflexivity].
  cbn [List.map List.filter]. unfold resolved at 1, closestDatum at 1 2.
  cbn [fst snd TooltipDatum.indClosest].
  destruct (findClosestIndex (DataSeries.points s) cursorX); reflexivity.
Qed.

Lemma update_cursoredData (c : Component) (cursorX : number) :
  cursorXLocation c = Some cursorX ->
  cursoredData (after updateCursoredDataAndTooltipVisibility c)
  = omap (tooltipOf c cursorX) (seriesData c).
Proof.
  intros Hcx. rewrite <- tooltip_chain.
  unfold after, updateCursoredDataAndTooltipVisibility, bind, this. cbn.
  rewrite Hcx. reflexivity.
Qed.

Lemma update_attached (c : Component) (cursorX : number) :
  cursorXLocation c = Some cursorX ->
  tooltipDislayAttached (after updateCursoredDataAndTooltipVisibility c)
  = isCursorInside c
    && Boolean_length
         (length (cursoredData
                    (after updateCursoredDataAndTooltipVisibility c))).
Proof.
  intros Hcx.
  unfold after, updateCursoredDataAndTooltipVisibility, bind, this. cbn.
  rewrite Hcx. reflexivity.
Qed.

(** C5: a cursor update with [cursorXLocation] set leaves in
    [cursoredData] exactly one entry per series whose metadata exists, is
    visible and not auxiliary and whose closest index is not null, in the
    order of the series; a series with no closest index has no entry and
    takes none away from the series before and after it; and the tooltip
    is attached exactly when the cursor is inside and [cursoredData] is
    not empty. *)
Theorem cursor_update_tooltips (c : Component) (cursorX : number) :
  cursorXLocation c = Some cursorX ->
  cursoredData (after updateCursoredDataAndTooltipVisibility c)
    = omap (tooltipOf c cursorX) (seriesData c)
  /\ (forall before s rest,
        seriesData c = before ++ s :: rest ->
        findClosestIndex (DataSeries.points s) cursorX = None ->
        cursoredData (after updateCursoredDataAndTooltipVisibility c)
        = omap (tooltipOf c cursorX) before
          ++ omap (tooltipOf c cursorX) rest)
  /\ (tooltipDislayAttached (after updateCursoredDataAndTooltipVisibility c)
        = true
      <-> isCursorInside c = true
          /\ cursoredData (after updateCursoredDataAndTooltipVisibility c)
             <> []).
Proof.
  intros Hcx. split; [|split].
  - exact (update_cursoredData c cursorX Hcx).
  - intros before s rest Hl Hnone.
    rewrite (update_cursoredData c cursorX Hcx), Hl, omap_app.
    cbn [omap list_omap]. unfold tooltipOf at 2. rewrite Hnone.
    destruct (seriesMetadataMap c !! DataSeries.id s) as [m|];
      [destruct (_ && _)|]; reflexivity.
  - rewrite (update_attached c cursorX Hcx), andb_true_iff.
    destruct (cursoredData _); cbn; intuition congruence.
Qed.

(** A search that returns indices of its list finds none in an empty one. *)
Lemma empty_series_unresolved (target : number) :
  index_in_range findClosestIndex -> findClosestIndex [] target = None.
Proof.
  intros Hrange. destruct (findClosestIndex [] target) as [i|] eqn:Hi;
    [|reflexivity].
  apply Hrange in Hi. cbn in Hi. lia.
Qed.

Lemma updateTooltip_cursor (c : Component) (event : MouseEvent) :
  cursorXLocation (after (updateTooltip event) c)
  = Some (getDataX c (offsetX event)).
Proof. reflexivity. Qed.

(** Every handler keeps [no_cursor_no_tooltip]: the three that move the
    cursor set a position, the others leave the tooltip fields alone. *)
Lemma handle_no_cursor_no_tooltip (c : Component) (ev : Event) :
  no_cursor_no_tooltip c -> no_cursor_no_tooltip (after (handle ev) c).
Proof.
  unfold no_cursor_no_tooltip.
  destruct c as [inp st box cx cd att zi ds ins ht]. cbn. intros Hinv.
  destruct ev as [|e| |e|e|e|e| |i|]; cbn [handle].
  - exact Hinv.
  - handler. destruct (shiftKey e); exact Hinv.
  - handler.
    destruct st, (0 <? Rect.width box)%float, (0 <? Rect.height box)%float;
      exact Hinv.
  - handler. discriminate.
  - handler. discriminate.
  - handler. destruct st; cbn; [discriminate| |discriminate|exact Hinv].
    destruct ds; exact Hinv.
  - handler.
    destruct (negb (ctrlKey e) && negb (shiftKey e) && altKey e);
      [destruct st|]; exact Hinv.
  - handler. destruct ht; exact Hinv.
  - handler. destruct cx; [discriminate|exact Hinv].
  - intros Hcx. destruct (Hinv Hcx) as [Hcd _]. split; [exact Hcd|reflexivity].
Qed.

Lemma reachable_no_cursor_no_tooltip (c : Component) :
  reachable c -> no_cursor_no_tooltip c.
Proof.
  induction 1 as [i|c ev _ IH].
  - intros _. split; reflexivity.
  - apply handle_no_cursor_no_tooltip, IH.
Qed.

(** C8: with no cursor position the tooltip resolution does nothing:
    neither [cursoredData] nor the attached flag is recomputed and nothing
    is emitted; and, as no handler ever unsets the cursor position, there
    is then no data and no attached tooltip. *)
Theorem update_without_cursor (c : Component) :
  cursorXLocation c = None ->
  updateCursoredDataAndTooltipVisibility c = (tt, c, [])
  /\ (reachable c ->
      cursoredData (after updateCursoredDataAndTooltipVisibility c) = []
      /\ tooltipDislayAttached
           (after updateCursoredDataAndTooltipVisibility c) = false).
Proof.
  intros Hcx.
  assert (Hskip : updateCursoredDataAndTooltipVisibility c = (tt, c, [])).
  { unfold updateCursoredDataAndTooltipVisibility, bind, this, ret.
    cbn. rewrite Hcx. reflexivity. }
  split; [exact Hskip|].
  intros Hreach. unfold after. rewrite Hskip. cbn.
  exact (reachable_no_cursor_no_tooltip c Hreach Hcx).
Qed.

Lemma tooltipOf_resolves (c : Component) (cursorX : number)
    (l : list DataSeries.t) :
  index_in_range findClosestIndex ->
  Forall (resolves l) (omap (tooltipOf c cursorX) l).
Proof.
  intros Hrange. apply Forall_forall. intros d Hd.
  apply list_elem_of_omap in Hd as (s & Hs & Hof).
  apply list_elem_of_In in Hs. unfold tooltipOf in Hof.
  destruct (seriesMetadataMap c !! DataSeries.id s) as [m|]; [|discriminate].
  destruct (_ && _); [|discriminate].
  destruct (findClosestIndex (DataSeries.points s) cursorX) as [i|] eqn:Hi;
    [|discriminate].
  injection Hof as <-.
  destruct (lookup_lt_is_Some_2 _ _ (Hrange _ _ _ Hi)) as [p Hp].
  exists s, i, p. cbn. auto.
Qed.

(** C10: after a cursor update every entry of [cursoredData] has an index
    and a point that are not null, the point being the one at that index
    in the points of the entry's series. It holds for a closest-index
    search that returns indices of the list it was given. *)
Theorem cursoredData_resolved (c : Component) :
  index_in_range findClosestIndex ->
  (forall event : MouseEvent,
      Forall (resolves (seriesData c))
        (cursoredData (after (updateTooltip event) c)))
  /\ (forall cursorX,
        cursorXLocation c = Some cursorX ->
        Forall (resolves (seriesData c))
          (cursoredData (after updateCursoredDataAndTooltipVisibility c))).
Proof.
  intros Hrange. split.
  - intros event.
    pose (c1 := set_cursorXLocation (Some (getDataX c (offsetX event))) c).
    change (after (updateTooltip event) c)
      with (after updateCursoredDataAndTooltipVisibility c1).
    rewrite (update_cursoredData c1 _ eq_refl).
    exact (tooltipOf_resolves c1 _ (seriesData c) Hrange).
  - intros cursorX Hcx. rewrite (update_cursoredData c cursorX Hcx).
    exact (tooltipOf_resolves c cursorX _ Hrange).
Qed.

(** *** Mouse leave *)

(** C6: after a mouse leave, whatever the state before, the tooltip is
    detached, the state is NONE and the drag origin is cleared. *)
Theorem mouseleave_resets (c : Component) (event : MouseEvent) :
  tooltipDislayAttached (after (onMouseLeave event) c) = false
  /\ state (after (onMouseLeave event) c) = NONE
  /\ dragStartCoord (after (onMouseLeave event) c) = None.
Proof.
  destruct c as [inp st box cx cd att zi ds ins ht]. repeat split.
Qed.

(** C9, as the code has it: a mouse leave resolves a new cursor position
    from the leave event, [toData(event.offsetX)], in place of the last
    one, and clears the cursor-inside flag. *)
Theorem mouseleave_moves_cursor (c : Component) (event : MouseEvent) :
  cursorXLocation (after (onMouseLeave event) c)
    = Some (getDataX c (offsetX event))
  /\ isCursorInside (after (onMouseLeave event) c) = false.
Proof.
  destruct c as [inp st box cx cd att zi ds ins ht]. repeat split.
Qed.

(** *** Every handler *)

(** X1: only [ngOnChanges] writes the inputs: no DOM event, timer or
    overlay callback changes the series, the metadata, the view extent,
    the scales or the dimension. *)
Theorem handlers_keep_inputs (c : Component) (ev : Event) :
  (forall i, ev <> Changes i) -> inputs (after (handle ev) c) = inputs c.
Proof.
  intros Hev. destruct c as [inp st box cx cd att zi ds ins ht].
  destruct ev as [|e| |e|e|e|e| |i|]; cbn [handle]; handler.
  - reflexivity.
  - destruct (shiftKey e); reflexivity.
  - destruct st, (0 <? Rect.width box)%float, (0 <? Rect.height box)%float;
      reflexivity.
  - reflexivity.
  - reflexivity.
  - destruct st; [|destruct ds| |]; reflexivity.
  - destruct (negb (ctrlKey e) && negb (shiftKey e) && altKey e);
      [destruct st|]; reflexivity.
  - destruct ht; reflexivity.
  - destruct (Hev i eq_refl).
  - reflexivity.
Qed.

(** X2: one event emits at most one view-extent change, and only a mouse
    up that ends a drag zoom, a mouse move while panning or a wheel zoom
    gesture emits one; a view-extent reset is emitted by a double click and
    by nothing else. *)
Theorem handlers_emit_at_most_one (c : Component) (ev : Event) :
  length (viewExtentChanges (effects (handle ev) c)) <= 1
  /\ (viewExtentChanges (effects (handle ev) c) <> [] ->
      (ev = MouseUp /\ state c = DRAG_ZOOMING)
      \/ (exists e, ev = MouseMove e /\ state c = PANNING)
      \/ (exists e, ev = Wheel e /\ zoomGesture e))
  /\ (In ViewExtentReset (effects (handle ev) c) <-> ev = DblClick).
Proof.
  destruct c as [inp st box cx cd att zi ds ins ht].
  destruct ev as [|e| |e|e|e|e| |i|]; cbn [handle]; handler.
  - split; [lia|]. split; [congruence|]. cbn. intuition.
  - destruct (shiftKey e); cbn; (split; [lia|]);
      (split; [congruence|]); intuition congruence.
  - destruct st, (0 <? Rect.width box)%float, (0 <? Rect.height box)%float;
      cbn; (split; [lia|]); (split; [auto; congruence|]);
      intuition congruence.
  - cbn. split; [lia|]. split; [congruence|]. intuition congruence.
  - cbn. split; [lia|]. split; [congruence|]. intuition congruence.
  - destruct st; [|destruct ds| |]; cbn; (split; [lia|]);
      (split; [try congruence; eauto|]); intuition congruence.
  - pose proof (zoomGesture_shouldZoom e) as Hz.
    destruct (negb (ctrlKey e) && negb (shiftKey e) && altKey e);
      [destruct st|]; cbn; (split; [lia|]);
      (split; [first [congruence
                     | intros _; right; right; exists e;
                       split; [reflexivity|apply Hz; reflexivity]]|]);
      intuition congruence.
  - destruct ht; cbn; (split; [lia|]); (split; [congruence|]);
      intuition congruence.
  - destruct cx; cbn; (split; [lia|]); (split; [congruence|]);
      intuition congruence.
  - cbn. split; [lia|]. split; [congruence|]. intuition congruence.
Qed.

(** X3: a state is entered only by its own event: DRAG_ZOOMING by a mouse
    down without Shift, PANNING by a mouse down with Shift, SCROLL_ZOOMING
    by a wheel zoom gesture. *)
Theorem state_entered_only_by (c : Component) (ev : Event) :
  (state (after (handle ev) c) = DRAG_ZOOMING ->
   state c = DRAG_ZOOMING
   \/ exists e, ev = MouseDown e /\ shiftKey e = false)
  /\ (state (after (handle ev) c) = PANNING ->
      state c = PANNING
      \/ exists e, ev = MouseDown e /\ shiftKey e = true)
  /\ (state (after (handle ev) c) = SCROLL_ZOOMING ->
      state c = SCROLL_ZOOMING
      \/ exists e, ev = Wheel e /\ zoomGesture e).
Proof.
  destruct c as [inp st box cx cd att zi ds ins ht].
  destruct ev as [|e| |e|e|e|e| |i|]; cbn [handle]; handler.
  - repeat split; discriminate.
  - destruct (shiftKey e) eqn:Hshift; cbn;
      repeat split; first [discriminate | solve [eauto]].
  - destruct st, (0 <? Rect.width box)%float, (0 <? Rect.height box)%float;
      cbn; repeat split; discriminate.
  - repeat split; auto.
  - repeat split; discriminate.
  - destruct st; [|destruct ds| |]; cbn; repeat split;
      first [discriminate | auto].
  - pose proof (zoomGesture_shouldZoom e) as Hz.
    destruct (negb (ctrlKey e) && negb (shiftKey e) && altKey e);
      [destruct st|]; cbn; repeat split;
      first [discriminate | solve [auto]
            | intros _; right; exists e;
              split; [reflexivity|apply Hz; reflexivity]].
  - destruct ht; cbn; repeat split; auto.
  - destruct cx; cbn; repeat split; auto.
  - repeat split; auto.
Qed.

Lemma handle_gesture_has_origin (c : Component) (ev : Event) :
  gesture_has_origin c -> gesture_has_origin (after (handle ev) c).
Proof.
  unfold gesture_has_origin.
  destruct c as [inp st box cx cd att zi ds ins ht]. cbn. intros Hinv.
  destruct ev as [|e| |e|e|e|e| |i|]; cbn [handle]; handler.
  - intros [|]; discriminate.
  - destruct (shiftKey e); cbn; intros _; discriminate.
  - destruct st, (0 <? Rect.width box)%float, (0 <? Rect.height box)%float;
      cbn; intros [|]; discriminate.
  - exact Hinv.
  - intros [|]; discriminate.
  - destruct st; [|destruct ds| |]; cbn;
      first [exact Hinv | intros [|]; discriminate].
  - destruct (negb (ctrlKey e) && negb (shiftKey e) && altKey e);
      [destruct st|]; cbn;
      first [exact Hinv | intros [|]; discriminate].
  - destruct ht; exact Hinv.
  - destruct cx; exact Hinv.
  - exact Hinv.
Qed.

Lemma reachable_gesture_has_origin (c : Component) :
  reachable c -> gesture_has_origin c.
Proof.
  induction 1 as [i|c ev _ IH].
  - intros [|]; discriminate.
  - apply handle_gesture_has_origin, IH.
Qed.

(** X4: whatever events came before, a component in DRAG_ZOOMING has its
    drag origin: the mouse move's guard against a missing origin is never
    taken, the zoom box is recomputed and the view marked for check. *)
Theorem drag_origin_recorded (c : Component) (event : MouseEvent) :
  reachable c ->
  state c = DRAG_ZOOMING ->
  exists start,
    dragStartCoord c = Some start
    /\ zoomBoxInUiCoordinate (after (onMouseMove event) c)
       = spannedBox (Point.x start) (Point.y start)
           (offsetX event) (offsetY event)
    /\ effects (onMouseMove event) c = [MarkForCheck].
Proof.
  intros Hreach Hst.
  pose proof (reachable_gesture_has_origin c Hreach (or_introl Hst)) as Hds.
  destruct c as [inp st box cx cd att zi ds ins ht]. cbn in Hst, Hds.
  subst st. destruct ds as [start|]; [|destruct (Hds eq_refl)].
  exists start. repeat split.
Qed.

(** *** Gestures *)

(** X5: a press and a release with no move between them never zoom: the
    mouse up after a mouse down emits no view-extent change, with or
    without Shift, whatever the zoom box was before. *)
Theorem click_never_zooms (c : Component) (event : MouseEvent) :
  viewExtentChanges (effects onMouseUp (after (onMouseDown event) c)) = []
  /\ state (after onMouseUp (after (onMouseDown event) c)) = NONE.
Proof.
  destruct c as [inp st box cx cd att zi ds ins ht]. handler.
  destruct (shiftKey event); split; reflexivity.
Qed.

(** X6: a drag zoom from press to release: after a mouse down without
    Shift at one position and a mouse move to another, the mouse up emits
    the extent of the rectangle the two positions span, read through the
    reverse scales of the inputs, if that rectangle has positive width and
    height, and nothing otherwise. The far edges are the near ones plus the
    width and the height. *)
Theorem drag_zoom_gesture (c : Component) (down move : MouseEvent) :
  shiftKey down = false ->
  let dragged := after (onMouseMove move) (after (onMouseDown down) c) in
  let box := spannedBox (offsetX down) (offsetY down)
               (offsetX move) (offsetY move) in
  zoomBoxInUiCoordinate dragged = box
  /\ viewExtentChanges (effects onMouseUp dragged) =
       if (0 <? Rect.width box)%float && (0 <? Rect.height box)%float
       then [ {| Extent.x := (getDataX c (Rect.x box),
                              getDataX c (Rect.x box + Rect.width box));
                 Extent.y := (getDataY c (Rect.y box + Rect.height box),
                              getDataY c (Rect.y box)) |} ]
       else [].
Proof.
  intros Hshift dragged box.
  assert (Hdragged : dragged
            = set_zoomBoxInUiCoordinate box
                (set_dragStartCoord
                   (Some (Point.mk (offsetX down) (offsetY down)))
                   (set_state DRAG_ZOOMING c))).
  { subst dragged box. destruct c as [inp st zb cx cd att zi ds ins ht].
    handler. rewrite Hshift. reflexivity. }
  split; [rewrite Hdragged; reflexivity|].
  rewrite onMouseUp_changes, Hdragged.
  destruct c as [inp st zb cx cd att zi ds ins ht]. reflexivity.
Qed.

(** X7: a gesture that was ended or replaced does not zoom later: after a
    mouse up, a mouse leave, a double click or a wheel zoom gesture, a
    mouse up emits no view-extent change. *)
Theorem ended_gesture_never_zooms (c : Component) (ev : Event) :
  ev = MouseUp \/ ev = DblClick
  \/ (exists e, ev = MouseLeave e)
  \/ (exists e, ev = Wheel e /\ zoomGesture e) ->
  viewExtentChanges (effects onMouseUp (after (handle ev) c)) = [].
Proof.
  intros Hev. rewrite onMouseUp_changes.
  assert (Hst : state (after (handle ev) c) <> DRAG_ZOOMING).
  { destruct c as [inp st box cx cd att zi ds ins ht].
    destruct Hev as [-> | [-> | [[e ->] | [e [-> Hz]]]]]; cbn [handle].
    - rewrite onMouseUp_state. discriminate.
    - discriminate.
    - discriminate.
    - apply zoomGesture_shouldZoom in Hz. handler. rewrite Hz.
      destruct st; discriminate. }
  destruct (state (after (handle ev) c)); first [reflexivity | congruence].
Qed.

(** *** The tooltip over time *)

(** X8: resolving the tooltip twice is resolving it once: a second
    [updateCursoredDataAndTooltipVisibility], or a second [ngOnChanges]
    with the same inputs, changes nothing. *)
Theorem update_idempotent (c : Component) (i : Inputs) :
  after updateCursoredDataAndTooltipVisibility
    (after updateCursoredDataAndTooltipVisibility c)
  = after updateCursoredDataAndTooltipVisibility c
  /\ after (ngOnChanges i) (after (ngOnChanges i) c)
     = after (ngOnChanges i) c.
Proof.
  destruct c as [inp st box cx cd att zi ds ins ht]. handler.
  destruct cx; split; reflexivity.
Qed.

Lemma handle_cursoredData_current (c : Component) (ev : Event) :
  cursoredData_current c -> cursoredData_current (after (handle ev) c).
Proof.
  unfold cursoredData_current.
  destruct c as [inp st box cx cd att zi ds ins ht]. cbn. intros Hinv.
  assert (Hnew : forall (j : Inputs) (s : InteractionState) (o : option Point.t)
                   (b : bool) (v : number),
            cursoredData
              (after updateCursoredDataAndTooltipVisibility
                 (Build_Component j s box (Some v) cd att zi o b ht))
            = omap (tooltipOf (Build_Component j s box (Some v) cd att zi o b ht) v)
                (seriesData j)).
  { intros j s o b v. apply update_cursoredData. reflexivity. }
  destruct ev as [|e| |e|e|e|e| |i|]; cbn [handle]; handler.
  - exact Hinv.
  - destruct (shiftKey e); exact Hinv.
  - destruct st, (0 <? Rect.width box)%float, (0 <? Rect.height box)%float;
      exact Hinv.
  - intros v [= <-]. exact (Hnew inp st ds true _).
  - intros v [= <-]. exact (Hnew inp st None false _).
  - destruct st; cbn.
    + intros v [= <-]. exact (Hnew inp NONE ds ins _).
    + destruct ds; exact Hinv.
    + intros v [= <-]. exact (Hnew inp NONE ds ins _).
    + exact Hinv.
  - destruct (negb (ctrlKey e) && negb (shiftKey e) && altKey e);
      [destruct st|]; exact Hinv.
  - destruct ht; exact Hinv.
  - destruct cx as [v0|]; cbn; [|discriminate].
    intros v [= <-]. exact (Hnew i st ds ins _).
  - exact Hinv.
Qed.

Lemma reachable_cursoredData_current (c : Component) :
  reachable c -> cursoredData_current c.
Proof.
  induction 1 as [i|c ev _ IH].
  - intros v Hv. discriminate Hv.
  - apply handle_cursoredData_current, IH.
Qed.

(** X9: [cursoredData] is never stale: whatever events came before, once
    there is a cursor position it holds the entries the current series and
    metadata give at that position; in particular new inputs are resolved
    at once, without a pointer move. *)
Theorem cursoredData_never_stale (c : Component) (cursorX : number) :
  reachable c ->
  cursorXLocation c = Some cursorX ->
  cursoredData c = omap (tooltipOf c cursorX) (seriesData c).
Proof.
  intros Hreach. exact (reachable_cursoredData_current c Hreach cursorX).
Qed.

Lemma handle_attached_inside (c : Component) (ev : Event) :
  attached_inside c -> attached_inside (after (handle ev) c).
Proof.
  unfold attached_inside.
  destruct c as [inp st box cx cd att zi ds ins ht]. cbn. intros Hinv.
  assert (Hlen : forall (b : bool) (l : list TooltipDatum.t),
            b && Boolean_length (length l) = true -> b = true /\ l <> []).
  { intros b [|d l]; rewrite andb_true_iff; cbn; intuition congruence. }
  destruct ev as [|e| |e|e|e|e| |i|]; cbn [handle]; handler.
  - exact Hinv.
  - destruct (shiftKey e); exact Hinv.
  - destruct st, (0 <? Rect.width box)%float, (0 <? Rect.height box)%float;
      exact Hinv.
  - apply (Hlen true).
  - discriminate.
  - destruct st; cbn; [apply Hlen| |apply Hlen|exact Hinv].
    destruct ds; exact Hinv.
  - destruct (negb (ctrlKey e) && negb (shiftKey e) && altKey e);
      [destruct st|]; exact Hinv.
  - destruct ht; exact Hinv.
  - destruct cx; cbn; [apply Hlen|exact Hinv].
  - discriminate.
Qed.

(** X10: whatever events came before, an attached tooltip has the cursor
    inside the chart and at least one entry to show. *)
Theorem attached_tooltip_has_data (c : Component) :
  reachable c ->
  tooltipDislayAttached c = true ->
  isCursorInside c = true /\ cursoredData c <> [].
Proof.
  intros Hreach. change (attached_inside c).
  induction Hreach as [i|c ev _ IH].
  - discriminate.
  - apply handle_attached_inside, IH.
Qed.

(** X11: no handler unsets the cursor position: once it is set the tooltip
    resolution is never skipped again. *)
Theorem cursor_stays_set (c : Component) (ev : Event) :
  cursorXLocation c <> None ->
  cursorXLocation (after (handle ev) c) <> None.
Proof.
  destruct c as [inp st box cx cd att zi ds ins ht]. cbn. intros Hcx.
  destruct ev as [|e| |e|e|e|e| |i|]; cbn [handle]; handler.
  - exact Hcx.
  - destruct (shiftKey e); exact Hcx.
  - destruct st, (0 <? Rect.width box)%float, (0 <? Rect.height box)%float;
      exact Hcx.
  - discriminate.
  - discriminate.
  - destruct st; cbn; [discriminate| |discriminate|exact Hcx].
    destruct ds; exact Hcx.
  - destruct (negb (ctrlKey e) && negb (shiftKey e) && altKey e);
      [destruct st|]; exact Hcx.
  - destruct ht; exact Hcx.
  - destruct cx; cbn; [discriminate|exact Hcx].
  - exact Hcx.
Qed.

Lemma tooltip_ids_sublist (c : Component) (cursorX : number)
    (l : list DataSeries.t) :
  sublist (map TooltipDatum.id (omap (tooltipOf c cursorX) l))
          (map DataSeries.id l).
Proof.
  induction l as [|s l IH]; cbn [omap list_omap map]; [constructor|].
  unfold tooltipOf at 1.
  destruct (seriesMetadataMap c !! DataSeries.id s) as [m|];
    [|apply sublist_cons, IH].
  destruct (Metadata.visible m && negb (Boolean_opt (Metadata.aux m)));
    [|apply sublist_cons, IH].
  destruct (findClosestIndex (DataSeries.points s) cursorX);
    [|apply sublist_cons, IH].
  cbn. apply sublist_skip, IH.
Qed.

(** X12: the keys [trackBySeriesName] gives the rows of the tooltip are
    ids of the series, in the order of the series; when the series have
    distinct ids, the rows have distinct keys. *)
Theorem trackBySeriesName_distinct (c : Component) (cursorX : number) :
  cursorXLocation c = Some cursorX ->
  let rows :=
    cursoredData (after updateCursoredDataAndTooltipVisibility c) in
  sublist (imap trackBySeriesName rows) (map DataSeries.id (seriesData c))
  /\ (NoDup (map DataSeries.id (seriesData c)) ->
      NoDup (imap trackBySeriesName rows)).
Proof.
  intros Hcx rows.
  assert (Hsub : sublist (imap trackBySeriesName rows)
                   (map DataSeries.id (seriesData c))).
  { subst rows. rewrite (update_cursoredData c cursorX Hcx).
    change trackBySeriesName with (@const _ nat TooltipDatum.id).
    rewrite imap_const. apply tooltip_ids_sublist. }
  split; [exact Hsub|].
  intros Hnodup. eapply sublist_NoDup; eassumption.
Qed.

(** X13: a mouse enter attaches the tooltip exactly when some series is
    resolved at the pointer: its metadata exists, is visible and not
    auxiliary, and it has a closest index there. *)
Theorem mouseenter_attaches (c : Component) (event : MouseEvent) :
  cursorXLocation (after (onMouseEnter event) c)
    = Some (getDataX c (offsetX event))
  /\ (tooltipDislayAttached (after (onMouseEnter event) c) = true
      <-> exists s,
            In s (seriesData c)
            /\ tooltipOf c (getDataX c (offsetX event)) s <> None).
Proof.
  assert (Hdata : cursoredData (after (onMouseEnter event) c)
                  = omap (tooltipOf c (getDataX c (offsetX event)))
                      (seriesData c)).
  { rewrite <- tooltip_chain.
    destruct c as [inp st box cx cd att zi ds ins ht]. reflexivity. }
  assert (Hatt : tooltipDislayAttached (after (onMouseEnter event) c)
                 = Boolean_length
                     (length (cursoredData (after (onMouseEnter event) c)))).
  { destruct c as [inp st box cx cd att zi ds ins ht]. reflexivity. }
  split; [destruct c; reflexivity|].
  rewrite Hatt, Hdata. clear Hatt Hdata.
  split.
  - intros Hlen.
    destruct (omap _ _) as [|d l] eqn:Hd; [discriminate|].
    assert (Hin : d ∈ omap (tooltipOf c (getDataX c (offsetX event)))
                      (seriesData c)) by (rewrite Hd; left).
    apply list_elem_of_omap in Hin as (s & Hs & Hof).
    exists s. split; [apply list_elem_of_In, Hs|congruence].
  - intros (s & Hs & Hof).
    destruct (tooltipOf c (getDataX c (offsetX event)) s) as [d|] eqn:Hd;
      [|congruence].
    assert (Hin : d ∈ omap (tooltipOf c (getDataX c (offsetX event)))
                      (seriesData c)).
    { apply list_elem_of_omap. exists s.
      split; [apply list_elem_of_In, Hs|exact Hd]. }
    destruct (omap _ _); [inversion Hin|reflexivity].
Qed.

(** X14: a mouse move ends a scroll zoom: from SCROLL_ZOOMING it does what
    it does from NONE, leaving the same component and making the same
    calls, the state being NONE afterwards. *)
Theorem mousemove_ends_scroll_zoom (c : Component) (event : MouseEvent) :
  state c = SCROLL_ZOOMING ->
  onMouseMove event c = onMouseMove event (set_state NONE c)
  /\ state (after (onMouseMove event) c) = NONE.
Proof.
  intros Hst. destruct c as [inp st box cx cd att zi ds ins ht].
  cbn in Hst. subst st. split; reflexivity.
Qed.

(** *** The zoom instruction *)

Lemma handle_instruction_timed (c : Component) (ev : Event) :
  instruction_timed c -> instruction_timed (after (handle ev) c).
Proof.
  unfold instruction_timed.
  destruct c as [inp st box cx cd att zi ds ins ht]. cbn. intros Hinv.
  destruct ev as [|e| |e|e|e|e| |i|]; cbn [handle]; handler.
  - exact Hinv.
  - destruct (shiftKey e); exact Hinv.
  - destruct st, (0 <? Rect.width box)%float, (0 <? Rect.height box)%float;
      exact Hinv.
  - exact Hinv.
  - exact Hinv.
  - destruct st; [|destruct ds| |]; exact Hinv.
  - destruct (negb (ctrlKey e) && negb (shiftKey e) && altKey e);
      [destruct st|]; cbn; intuition congruence.
  - destruct ht; cbn; [intuition congruence|exact Hinv].
  - destruct cx; exact Hinv.
  - exact Hinv.
Qed.

(** X15: whatever events came before, the zoom instruction shows exactly
    while the timer that hides it is pending: it is never left showing
    with nothing to hide it. *)
Theorem zoom_instruction_timed (c : Component) :
  reachable c ->
  (showZoomInstruction c = true <-> hideTimer c <> None).
Proof.
  intros Hreach. change (instruction_timed c).
  induction Hreach as [i|c ev _ IH].
  - unfold instruction_timed. cbn. intuition congruence.
  - apply handle_instruction_timed, IH.
Qed.

(** X16: after a wheel event and the timer it may have started, the zoom
    instruction is hidden and no timer is left: a wheel that is no zoom
    gesture shows it until the timer fires, a zoom gesture hides it at
    once and drops the timer of an earlier wheel. *)
Theorem wheel_instruction_hidden (c : Component) (event : WheelEvent) :
  showZoomInstruction (after onHideTimer (after (onWheel event) c)) = false
  /\ hideTimer (after onHideTimer (after (onWheel event) c)) = None
  /\ (zoomGesture event ->
      showZoomInstruction (after (onWheel event) c) = false
      /\ hideTimer (after (onWheel event) c) = None)
  /\ (~ zoomGesture event ->
      hideTimer (after (onWheel event) c) = Some 3000%float).
Proof.
  destruct c as [inp st box cx cd att zi ds ins ht].
  pose proof (zoomGesture_shouldZoom event) as Hz.
  handler.
  destruct (negb (ctrlKey event) && negb (shiftKey event) && altKey event).
  - assert (Hg : zoomGesture event) by (apply Hz; reflexivity).
    destruct st; cbn;
      (split; [reflexivity|]); (split; [reflexivity|]);
      (split; [intros _; split; reflexivity | intros Hn; destruct (Hn Hg)]).
  - assert (Hn : ~ zoomGesture event)
      by (intros Hg; apply Hz in Hg; discriminate).
    cbn. split; [reflexivity|]. split; [reflexivity|].
    split; [intros Hg; destruct (Hn Hg) | intros _; reflexivity].
Qed.

(** *** What the tooltip shows, over time *)

Lemma reachable_cursoredData (c : Component) :
  reachable c ->
  cursoredData c = []
  \/ exists cursorX,
       cursoredData c = omap (tooltipOf c cursorX) (seriesData c).
Proof.
  intros Hreach. destruct (cursorXLocation c) as [v|] eqn:Hcx.
  - right. exists v. exact (reachable_cursoredData_current c Hreach v Hcx).
  - left. exact (proj1 (reachable_no_cursor_no_tooltip c Hreach Hcx)).
Qed.

(** X17: whatever events came before, and whatever inputs were set, every
    entry of [cursoredData] has an index and a point that are not null, the
    point being the one at that index in the points of a current series
    with the entry's id. It holds for a closest-index search that returns
    indices of the list it was given. *)
Theorem cursoredData_always_resolved (c : Component) :
  index_in_range findClosestIndex ->
  reachable c ->
  Forall (resolves (seriesData c)) (cursoredData c).
Proof.
  intros Hrange Hreach.
  destruct (reachable_cursoredData c Hreach) as [-> | [v ->]].
  - constructor.
  - exact (tooltipOf_resolves c v _ Hrange).
Qed.

Lemma tooltipOf_listed_visible (c : Component) (cursorX : number)
    (l : list DataSeries.t) :
  Forall (listed_visible c) (omap (tooltipOf c cursorX) l).
Proof.
  apply Forall_forall. intros d Hd.
  apply list_elem_of_omap in Hd as (s & _ & Hof). unfold tooltipOf in Hof.
  destruct (seriesMetadataMap c !! DataSeries.id s) as [m|] eqn:Hm;
    [|discriminate].
  destruct (Metadata.visible m && negb (Boolean_opt (Metadata.aux m)))
    eqn:Hshown; [|discriminate].
  destruct (findClosestIndex (DataSeries.points s) cursorX); [|discriminate].
  injection Hof as <-. exists m. cbn.
  apply andb_true_iff in Hshown as [Hvis Haux].
  apply negb_true_iff in Haux. auto.
Qed.

(** X18: the tooltip never shows a series that is hidden, auxiliary or has
    no metadata: whatever events came before, and whatever inputs were set,
    every entry of [cursoredData] carries the metadata the current map
    lists under its id, and that metadata is visible and not auxiliary. *)
Theorem cursoredData_always_visible (c : Component) :
  reachable c -> Forall (listed_visible c) (cursoredData c).
Proof.
  intros Hreach.
  destruct (reachable_cursoredData c Hreach) as [-> | [v ->]].
  - constructor.
  - apply tooltipOf_listed_visible.
Qed.

(** X19: a pan from press to release: after a mouse down with Shift, each
    mouse move emits the extent of the view shifted against the movement,
    read through the reverse scales of the inputs, and leaves the component
    as the press left it; the mouse up then emits nothing and ends in NONE;
    the zoom box is never touched. *)
Theorem pan_gesture (c : Component) (down move : MouseEvent) :
  shiftKey down = true ->
  let pressed := after (onMouseDown down) c in
  effects (onMouseMove move) pressed
    = [ViewExtentChange (pannedExtent c move)]
  /\ after (onMouseMove move) pressed = pressed
  /\ viewExtentChanges (effects onMouseUp pressed) = []
  /\ state (after onMouseUp pressed) = NONE
  /\ zoomBoxInUiCoordinate (after onMouseUp pressed)
     = zoomBoxInUiCoordinate c.
Proof.
  intros Hshift pressed.
  assert (Hpressed : pressed
            = set_dragStartCoord
                (Some (Point.mk (offsetX down) (offsetY down)))
                (set_state PANNING c)).
  { subst pressed. destruct c as [inp st zb cx cd att zi ds ins ht].
    handler. rewrite Hshift. reflexivity. }
  rewrite Hpressed. destruct c as [inp st zb cx cd att zi ds ins ht].
  repeat split.
Qed.

End LineChartInteractiveView.

(** ** The handlers on the sample chart *)

Lemma closest_from_lt (target : number) (pts : list Point.t)
    (i best : nat) (bestDist : number) (n : nat) :
  best < n -> i + length pts <= n ->
  Sample.closest_from target pts i best bestDist < n.
Proof.
  revert i best bestDist.
  induction pts as [|p rest IH]; intros i best bestDist Hbest Hlen;
    cbn [Sample.closest_from]; [exact Hbest|].
  cbn [length] in Hlen.
  destruct (abs (Point.x p - target) <? bestDist)%float; apply IH; lia.
Qed.

Lemma sample_index_in_range : index_in_range Sample.findClosestIndex.
Proof.
  intros [|p rest] target i; cbn [Sample.findClosestIndex]; [discriminate|].
  intros [= <-]. apply closest_from_lt; cbn [length]; lia.
Qed.

(** A press at (10, 10) and a move to (50, 40) give [Sample.dragged]. *)
Example press_then_drag :
  after (onMouseMove Sample.getScaleRangeFromDomDim Sample.findClosestIndex
           (Sample.mouseAt 50 40))
    (after (onMouseDown (Sample.mouseAt 10 10)) Sample.idle)
  = Sample.dragged.
Proof. reflexivity. Qed.

Lemma mouseup_commits_zoom_box_witness :
  viewExtentChanges
    (effects (onMouseUp Sample.getScaleRangeFromDomDim) Sample.dragged)
  = [Extent.mk (5, 25)%float (6, 9)%float]
  /\ viewExtentChanges
       (effects (onMouseUp Sample.getScaleRangeFromDomDim) Sample.pressed)
     = []
  /\ state (after (onMouseUp Sample.getScaleRangeFromDomDim) Sample.dragged)
     = NONE.
Proof.
  pose proof (mouseup_commits_zoom_box Sample.getScaleRangeFromDomDim
                Sample.dragged) as (Hcommit & _ & _ & Hstate).
  pose proof (mouseup_commits_zoom_box Sample.getScaleRangeFromDomDim
                Sample.pressed) as (_ & Hnone & _ & _).
  split; [|split].
  - exact (Hcommit eq_refl eq_refl eq_refl).
  - apply Hnone. left. reflexivity.
  - apply Hstate. discriminate.
Defined.

Lemma wheel_zoom_gesture_witness :
  (viewExtentChanges
     (effects (onWheel Sample.proposeViewExtentOnZoom
                 (Sample.wheelWith false false true)) Sample.idle)
   = [Sample.proposeViewExtentOnZoom (Sample.wheelWith false false true)
        (viewExtent Sample.idle) (domDim Sample.idle)
        SCROLL_ZOOM_SPEED_FACTOR]
   /\ state (after (onWheel Sample.proposeViewExtentOnZoom
                      (Sample.wheelWith false false true)) Sample.idle)
      = SCROLL_ZOOMING)
  /\ (viewExtentChanges
        (effects (onWheel Sample.proposeViewExtentOnZoom
                    (Sample.wheelWith true false true)) Sample.idle)
      = []
      /\ showZoomInstruction
           (after (onWheel Sample.proposeViewExtentOnZoom
                     (Sample.wheelWith true false true)) Sample.idle)
         = true).
Proof.
  split.
  - apply (wheel_zoom_gesture Sample.proposeViewExtentOnZoom Sample.idle
             (Sample.wheelWith false false true)).
    repeat split.
  - apply (wheel_zoom_gesture Sample.proposeViewExtentOnZoom Sample.idle
             (Sample.wheelWith true false true)).
    intros (_ & Hctrl & _). discriminate Hctrl.
Defined.

Lemma round_trip_witness :
  getDataX Sample.getScaleRangeFromDomDim Sample.idle
    (getDomX Sample.getScaleRangeFromDomDim Sample.idle 25) = 25%float
  /\ getDataY Sample.getScaleRangeFromDomDim Sample.idle
       (getDomY Sample.getScaleRangeFromDomDim Sample.idle 4) = 4%float.
Proof.
  split.
  - apply (round_trip Sample.getScaleRangeFromDomDim Sample.idle 25).
    reflexivity.
  - apply (round_trip Sample.getScaleRangeFromDomDim Sample.idle 4).
    reflexivity.
Defined.

Lemma mousemove_panning_witness :
  effects (onMouseMove Sample.getScaleRangeFromDomDim Sample.findClosestIndex
             (Sample.mouseMovedBy 10 0)) Sample.panning
  = [ViewExtentChange (Extent.mk (-5, 95)%float (0, 10)%float)].
Proof.
  apply (mousemove_panning Sample.getScaleRangeFromDomDim
           Sample.findClosestIndex Sample.panning (Sample.mouseMovedBy 10 0)).
  reflexivity.
Defined.

Lemma mousemove_drag_zooming_witness :
  zoomBoxInUiCoordinate
    (after (onMouseMove Sample.getScaleRangeFromDomDim Sample.findClosestIndex
              (Sample.mouseAt 5 80)) Sample.dragged)
  = Rect.mk 5 5 70 10.
Proof.
  apply (mousemove_drag_zooming Sample.getScaleRangeFromDomDim
           Sample.findClosestIndex Sample.dragged (Sample.mouseAt 5 80)
           (Sample.pt 10 10));
    reflexivity.
Defined.

Lemma cursor_update_tooltips_witness :
  map TooltipDatum.id
    (cursoredData
       (after (updateCursoredDataAndTooltipVisibility Sample.findClosestIndex)
          Sample.hovering))
  = ["run1"; "run2"]
  /\ tooltipDislayAttached
       (after (updateCursoredDataAndTooltipVisibility Sample.findClosestIndex)
          Sample.hovering)
     = true.
Proof.
  pose proof (cursor_update_tooltips Sample.findClosestIndex Sample.hovering
                30%float eq_refl) as (Hdata & _ & Hattached).
  split.
  - rewrite Hdata. reflexivity.
  - apply Hattached. split; [reflexivity|]. rewrite Hdata. discriminate.
Defined.

Lemma update_without_cursor_witness :
  updateCursoredDataAndTooltipVisibility Sample.findClosestIndex Sample.pressed
  = (tt, Sample.pressed, [])
  /\ cursoredData
       (after (updateCursoredDataAndTooltipVisibility Sample.findClosestIndex)
          Sample.pressed) = [].
Proof.
  destruct (update_without_cursor Sample.getScaleRangeFromDomDim
              Sample.findClosestIndex Sample.proposeViewExtentOnZoom
              Sample.pressed eq_refl) as [Hskip Hempty].
  split; [exact Hskip|].
  apply Hempty.
  exact (reachable_step _ _ _ (new_Component Sample.chart)
           (MouseDown (Sample.mouseAt 10 10)) (reachable_new _ _ _ _)).
Defined.

Lemma cursoredData_resolved_witness :
  Forall (resolves (seriesData Sample.idle))
    (cursoredData
       (after (updateTooltip Sample.getScaleRangeFromDomDim
                 Sample.findClosestIndex (Sample.mouseAt 60 20))
          Sample.idle)).
Proof.
  apply (cursoredData_resolved Sample.getScaleRangeFromDomDim
           Sample.findClosestIndex Sample.idle sample_index_in_range).
Defined.

(** C9 as stated fails: the cursor rests at x = 30, the pointer leaves at
    pixel 120, and the cursor position becomes 60. *)
Lemma mouseleave_forgets_cursor :
  cursorXLocation
    (after (onMouseLeave Sample.getScaleRangeFromDomDim
              Sample.findClosestIndex (Sample.mouseAt 120 50))
       Sample.hovering)
  <> cursorXLocation Sample.hovering.
Proof.
  intros H.
  apply (f_equal (fun o => match o with
                           | Some v => (v =? 30)%float
                           | None => true
                           end)) in H.
  vm_compute in H. discriminate H.
Qed.

(** ** Event sequences on the sample chart *)

Local Abbreviation sampleHandle :=
  (handle Sample.getScaleRangeFromDomDim Sample.findClosestIndex
     Sample.proposeViewExtentOnZoom).

Local Abbreviation sampleReachable :=
  (reachable Sample.getScaleRangeFromDomDim Sample.findClosestIndex
     Sample.proposeViewExtentOnZoom).

Local Abbreviation sampleMouseUp := (onMouseUp Sample.getScaleRangeFromDomDim).

Local Abbreviation sampleMouseMove :=
  (onMouseMove Sample.getScaleRangeFromDomDim Sample.findClosestIndex).

Local Abbreviation sampleUpdate :=
  (updateCursoredDataAndTooltipVisibility Sample.findClosestIndex).

(** One event after construction is reachable. *)
Lemma sample_reachable_after (ev : Event) :
  sampleReachable (after (sampleHandle ev) Sample.idle).
Proof. apply reachable_step, reachable_new. Defined.

Lemma handlers_keep_inputs_witness :
  inputs (after (sampleHandle (Wheel (Sample.wheelWith false false true)))
            Sample.dragged)
  = Sample.chart.
Proof.
  apply (handlers_keep_inputs Sample.getScaleRangeFromDomDim
           Sample.findClosestIndex Sample.proposeViewExtentOnZoom
           Sample.dragged (Wheel (Sample.wheelWith false false true))).
  intros i. discriminate.
Defined.

Lemma handlers_emit_at_most_one_witness :
  (MouseUp = MouseUp /\ state Sample.dragged = DRAG_ZOOMING)
  \/ (exists e, MouseUp = MouseMove e /\ state Sample.dragged = PANNING)
  \/ (exists e, MouseUp = Wheel e /\ zoomGesture e).
Proof.
  apply (handlers_emit_at_most_one Sample.getScaleRangeFromDomDim
           Sample.findClosestIndex Sample.proposeViewExtentOnZoom
           Sample.dragged MouseUp).
  vm_compute. discriminate.
Defined.

Lemma state_entered_only_by_witness :
  state Sample.idle = DRAG_ZOOMING
  \/ exists e, MouseDown (Sample.mouseAt 10 10) = MouseDown e
               /\ shiftKey e = false.
Proof.
  apply (state_entered_only_by Sample.getScaleRangeFromDomDim
           Sample.findClosestIndex Sample.proposeViewExtentOnZoom
           Sample.idle (MouseDown (Sample.mouseAt 10 10))).
  reflexivity.
Defined.

Lemma drag_origin_recorded_witness :
  exists start,
    dragStartCoord Sample.pressed = Some start
    /\ zoomBoxInUiCoordinate
         (after (sampleMouseMove (Sample.mouseAt 50 40)) Sample.pressed)
       = spannedBox (Point.x start) (Point.y start) 50 40
    /\ effects (sampleMouseMove (Sample.mouseAt 50 40)) Sample.pressed
       = [MarkForCheck].
Proof.
  apply (drag_origin_recorded Sample.getScaleRangeFromDomDim
           Sample.findClosestIndex Sample.proposeViewExtentOnZoom
           Sample.pressed (Sample.mouseAt 50 40)).
  - exact (sample_reachable_after (MouseDown (Sample.mouseAt 10 10))).
  - reflexivity.
Defined.

Lemma drag_zoom_gesture_witness :
  viewExtentChanges
    (effects sampleMouseUp
       (after (sampleMouseMove (Sample.mouseAt 50 40))
          (after (onMouseDown (Sample.mouseAt 10 10)) Sample.idle)))
  = [Extent.mk (5, 25)%float (6, 9)%float].
Proof.
  exact (proj2 (drag_zoom_gesture Sample.getScaleRangeFromDomDim
                  Sample.findClosestIndex Sample.idle
                  (Sample.mouseAt 10 10) (Sample.mouseAt 50 40) eq_refl)).
Defined.

Lemma ended_gesture_never_zooms_witness :
  viewExtentChanges
    (effects sampleMouseUp
       (after (sampleHandle (MouseLeave (Sample.mouseAt 120 50)))
          Sample.dragged))
  = [].
Proof.
  apply (ended_gesture_never_zooms Sample.getScaleRangeFromDomDim
           Sample.findClosestIndex Sample.proposeViewExtentOnZoom
           Sample.dragged (MouseLeave (Sample.mouseAt 120 50))).
  right. right. left. exists (Sample.mouseAt 120 50). reflexivity.
Defined.

Lemma cursoredData_never_stale_witness :
  map TooltipDatum.id
    (cursoredData
       (after (sampleHandle (MouseEnter (Sample.mouseAt 60 20))) Sample.idle))
  = ["run1"; "run2"].
Proof.
  rewrite (cursoredData_never_stale Sample.getScaleRangeFromDomDim
             Sample.findClosestIndex Sample.proposeViewExtentOnZoom
             (after (sampleHandle (MouseEnter (Sample.mouseAt 60 20)))
                Sample.idle)
             30%float
             (sample_reachable_after (MouseEnter (Sample.mouseAt 60 20)))
             eq_refl).
  reflexivity.
Defined.

Lemma attached_tooltip_has_data_witness :
  isCursorInside
    (after (sampleHandle (MouseEnter (Sample.mouseAt 60 20))) Sample.idle)
  = true
  /\ cursoredData
       (after (sampleHandle (MouseEnter (Sample.mouseAt 60 20))) Sample.idle)
     <> [].
Proof.
  apply (attached_tooltip_has_data Sample.getScaleRangeFromDomDim
           Sample.findClosestIndex Sample.proposeViewExtentOnZoom).
  - exact (sample_reachable_after (MouseEnter (Sample.mouseAt 60 20))).
  - reflexivity.
Defined.

Lemma cursor_stays_set_witness :
  cursorXLocation
    (after (sampleHandle (Wheel (Sample.wheelWith false false true)))
       Sample.hovering)
  <> None.
Proof.
  apply (cursor_stays_set Sample.getScaleRangeFromDomDim
           Sample.findClosestIndex Sample.proposeViewExtentOnZoom
           Sample.hovering).
  discriminate.
Defined.

Lemma trackBySeriesName_distinct_witness :
  NoDup (imap trackBySeriesName
           (cursoredData (after sampleUpdate Sample.hovering))).
Proof.
  apply (trackBySeriesName_distinct Sample.findClosestIndex Sample.hovering
           30%float eq_refl).
  apply (bool_decide_unpack _). vm_compute. exact I.
Defined.

Lemma mousemove_ends_scroll_zoom_witness :
  state
    (after (sampleMouseMove (Sample.mouseAt 60 20))
       (after (onWheel Sample.proposeViewExtentOnZoom
                 (Sample.wheelWith false false true)) Sample.idle))
  = NONE.
Proof.
  apply (mousemove_ends_scroll_zoom Sample.getScaleRangeFromDomDim
           Sample.findClosestIndex
           (after (onWheel Sample.proposeViewExtentOnZoom
                     (Sample.wheelWith false false true)) Sample.idle)
           (Sample.mouseAt 60 20)).
  reflexivity.
Defined.

Lemma zoom_instruction_timed_witness :
  showZoomInstruction
    (after (sampleHandle (Wheel (Sample.wheelWith true false true)))
       Sample.idle) = true
  <-> hideTimer
        (after (sampleHandle (Wheel (Sample.wheelWith true false true)))
           Sample.idle) <> None.
Proof.
  apply (zoom_instruction_timed Sample.getScaleRangeFromDomDim
           Sample.findClosestIndex Sample.proposeViewExtentOnZoom).
  exact (sample_reachable_after (Wheel (Sample.wheelWith true false true))).
Defined.

Lemma wheel_instruction_hidden_witness :
  hideTimer
    (after (onWheel Sample.proposeViewExtentOnZoom
              (Sample.wheelWith true false true)) Sample.idle)
  = Some 3000%float
  /\ hideTimer
       (after (onWheel Sample.proposeViewExtentOnZoom
                 (Sample.wheelWith false false true)) Sample.idle)
     = None.
Proof.
  split.
  - apply (wheel_instruction_hidden Sample.proposeViewExtentOnZoom
             Sample.idle (Sample.wheelWith true false true)).
    intros (_ & Hctrl & _). discriminate Hctrl.
  - apply (wheel_instruction_hidden Sample.proposeViewExtentOnZoom
             Sample.idle (Sample.wheelWith false false true)).
    repeat split.
Defined.

Lemma cursoredData_always_resolved_witness :
  Forall (resolves (seriesData Sample.idle))
    (cursoredData
       (after (sampleHandle (MouseEnter (Sample.mouseAt 60 20))) Sample.idle)).
Proof.
  apply (cursoredData_always_resolved Sample.getScaleRangeFromDomDim
           Sample.findClosestIndex Sample.proposeViewExtentOnZoom
           (after (sampleHandle (MouseEnter (Sample.mouseAt 60 20)))
              Sample.idle)
           sample_index_in_range).
  exact (sample_reachable_after (MouseEnter (Sample.mouseAt 60 20))).
Defined.

Lemma cursoredData_always_visible_witness :
  Forall (listed_visible Sample.idle)
    (cursoredData
       (after (sampleHandle (MouseEnter (Sample.mouseAt 60 20))) Sample.idle)).
Proof.
  apply (cursoredData_always_visible Sample.getScaleRangeFromDomDim
           Sample.findClosestIndex Sample.proposeViewExtentOnZoom
           (after (sampleHandle (MouseEnter (Sample.mouseAt 60 20)))
              Sample.idle)).
  exact (sample_reachable_after (MouseEnter (Sample.mouseAt 60 20))).
Defined.

Lemma pan_gesture_witness :
  effects (sampleMouseMove (Sample.mouseMovedBy 10 0))
    (after (onMouseDown (Sample.mouseMovedBy 0 0)) Sample.idle)
  = [ViewExtentChange (Extent.mk (-5, 95)%float (0, 10)%float)].
Proof.
  apply (pan_gesture Sample.getScaleRangeFromDomDim Sample.findClosestIndex
           Sample.idle (Sample.mouseMovedBy 0 0) (Sample.mouseMovedBy 10 0)).
  reflexivity.
Defined.
